(** * download_data.py: the synthetic OHLC generator, the fetch dispatcher,
      the CSV exporter and the batch driver

    A shallow embedding of [src/download_data.py], and the properties of it
    that its specification states.

    The model:
    - Prices are IEEE-754 binary64 numbers, as the [float64] columns of
      pandas are: they are Rocq's primitive floats, whose sum, difference and
      product are the same correctly rounded operations. A float literal of
      this file is the binary64 number nearest to it, as in Python.
    - Points in time are integers: a naive [pd.Timestamp] is a number of whole
      seconds since 1970-01-01 00:00 (every instant of the program is a whole
      minute), the [timestamp] column holds milliseconds.
    - Strings are byte strings.
    - [print], [os.makedirs] and [to_csv] act on an explicit [World]; a Python
      exception is the [Raise] outcome of a computation, and what was printed
      before it stays printed.
    - The library calls ([datetime.strptime], [pd.date_range],
      [pd.to_datetime], [strftime], [os.path.join]) are modelled by what they
      do on the values this program passes them. Not modelled: the limits of
      the libraries' own number ranges (the years 1677 to 2262 of nanosecond
      timestamps, the memory a long range takes), and a file system that
      refuses an operation.
    - How [to_csv] prints a [float64] cell is pandas' business: it is a
      parameter [float_repr] of the exporter.
    - The data-source branches and the fetch are parameters of
      [fetch_data_from_api_with] and [download_financial_data_with], so that
      integrations other than the three stubs can be studied; the functions
      of the program are their instances at the stubs.

    The file has two parts: the definitions, then the properties. *)

From Stdlib Require Import ZArith List String Ascii Bool Lia.
From Stdlib Require Import DecimalString DecimalZ Uint63 Floats.
Import ListNotations.

Set Warnings "-inexact-float".

Local Open Scope string_scope.
Local Open Scope Z_scope.

(* ================================================================= *)
(** ** Outcomes: values and exceptions *)

Inductive exn : Type :=
| ValueError (msg : string).

Inductive result (A : Type) : Type :=
| Return (a : A)
| Raise (e : exn).
Arguments Return {A} a.
Arguments Raise {A} e.

Definition bind_result {A B} (r : result A) (k : A -> result B) : result B :=
  match r with
  | Return a => k a
  | Raise e => Raise e
  end.

Definition exn_message (e : exn) : string :=
  match e with ValueError msg => msg end.

Definition raises {A} (r : result A) : Prop :=
  exists e, r = Raise e.

(* ================================================================= *)
(** ** Calendar dates *)

Module Calendar.

(** What [datetime.strptime(s, '%Y-%m-%d')] returns: a date at midnight. *)
Record datetime : Type := mkdate { year : Z; month : Z; day : Z }.

Definition is_leap (y : Z) : bool :=
  ((y mod 4 =? 0) && negb (y mod 100 =? 0)) || (y mod 400 =? 0).

Definition days_in_month (y m : Z) : Z :=
  if m =? 2 then (if is_leap y then 29 else 28)
  else if (m =? 4) || (m =? 6) || (m =? 9) || (m =? 11) then 30
  else 31.

(** The checks of the [datetime] constructor. *)
Definition valid_date (d : datetime) : bool :=
  (1 <=? year d) && (year d <=? 9999) &&
  (1 <=? month d) && (month d <=? 12) &&
  (1 <=? day d) && (day d <=? days_in_month (year d) (month d)).

(** Days from 1970-01-01 to the given date of the proleptic Gregorian
    calendar (the year starts in March inside the computation, so that the
    leap day is the last day of a year). *)
Definition days_from_civil (y m d : Z) : Z :=
  let y' := if m <=? 2 then y - 1 else y in
  let era := y' / 400 in
  let yoe := y' - era * 400 in
  let mp := if m <=? 2 then m + 9 else m - 3 in
  let doy := (153 * mp + 2) / 5 + d - 1 in
  let doe := yoe * 365 + yoe / 4 - yoe / 100 + doy in
  era * 146097 + doe - 719468.

(** The inverse: the date of a day number. *)
Definition civil_from_days (z : Z) : datetime :=
  let z' := z + 719468 in
  let era := z' / 146097 in
  let doe := z' - era * 146097 in
  let yoe := (doe - doe / 1460 + doe / 36524 - doe / 146096) / 365 in
  let doy := doe - (365 * yoe + yoe / 4 - yoe / 100) in
  let mp := (5 * doy + 2) / 153 in
  let d := doy - (153 * mp + 2) / 5 + 1 in
  let m := if mp <? 10 then mp + 3 else mp - 9 in
  let y := yoe + era * 400 in
  mkdate (if m <=? 2 then y + 1 else y) m d.

Definition ordinal (d : datetime) : Z :=
  days_from_civil (year d) (month d) (day d).

(** The order of the calendar. *)
Definition date_lt (a b : datetime) : Prop :=
  year a < year b \/
  (year a = year b /\
   (month a < month b \/ (month a = month b /\ day a < day b))).

Definition date_le (a b : datetime) : Prop := date_lt a b \/ a = b.

(** The day number split into the first day of the year and the day of the
    year, for the proofs. *)
Definition leap_day (y : Z) : Z := if is_leap y then 1 else 0.

Definition jan1 (y : Z) : Z :=
  365 * (y - 1) + (y - 1) / 4 - (y - 1) / 100 + (y - 1) / 400 - 719162.

Definition days_before_month (m : Z) : Z :=
  (367 * m - 362) / 12 - (if m <=? 2 then 0 else 2).

Definition yday (y m d : Z) : Z :=
  days_before_month m + (if 2 <? m then leap_day y else 0) + d - 1.

End Calendar.
Import Calendar.

(* ================================================================= *)
(** ** [datetime.strptime(s, '%Y-%m-%d')] *)

Module Strptime.

Definition char_in (lo hi c : ascii) : bool :=
  (N_of_ascii lo <=? N_of_ascii c)%N && (N_of_ascii c <=? N_of_ascii hi)%N.

Definition is_digit (c : ascii) : bool := char_in "0" "9" c.

Definition digit_val (c : ascii) : Z := Z.of_N (N_of_ascii c) - 48.

(** [%Y] is [\d\d\d\d]. *)
Definition match_year (s : string) : option (Z * string) :=
  match s with
  | String a (String b (String c (String d rest))) =>
      if is_digit a && is_digit b && is_digit c && is_digit d
      then Some (1000 * digit_val a + 100 * digit_val b
                 + 10 * digit_val c + digit_val d, rest)
      else None
  | _ => None
  end.

Definition match_dash (s : string) : option string :=
  match s with
  | String "-" rest => Some rest
  | _ => None
  end.

(** [%m] is [1[0-2]|0[1-9]|[1-9]], tried in this order, and a [-]
    follows: the two-digit alternatives need a digit in second place, the
    one-digit alternative the [-] there. *)
Definition match_month_dash (s : string) : option (Z * string) :=
  match s with
  | String a (String b rest) =>
      if Ascii.eqb b "-" then
        if char_in "1" "9" a then Some (digit_val a, rest) else None
      else
        match rest with
        | String c rest' =>
            if Ascii.eqb c "-"
               && ((Ascii.eqb a "1" && char_in "0" "2" b)
                   || (Ascii.eqb a "0" && char_in "1" "9" b))
            then Some (10 * digit_val a + digit_val b, rest')
            else None
        | EmptyString => None
        end
  | _ => None
  end.

(** [%d] is [3[0-1]|[1-2]\d|0[1-9]|[1-9]| [1-9]], the first alternative
    that matches wins; what is left of the string is returned. *)
Definition match_day (s : string) : option (Z * string) :=
  let one :=
    match s with
    | String a rest =>
        if char_in "1" "9" a then Some (digit_val a, rest) else None
    | EmptyString => None
    end in
  match s with
  | String a (String b rest) =>
      if (Ascii.eqb a "3" && char_in "0" "1" b)
         || (char_in "1" "2" a && is_digit b)
         || (Ascii.eqb a "0" && char_in "1" "9" b)
      then Some (10 * digit_val a + digit_val b, rest)
      else match one with
           | Some r => Some r
           | None =>
               if Ascii.eqb a " " && char_in "1" "9" b
               then Some (digit_val b, rest) else None
           end
  | _ => one
  end.

(** The match of the whole format at the start of the string. *)
Definition regex_match (s : string) : option (Z * Z * Z * string) :=
  match match_year s with
  | None => None
  | Some (y, s1) =>
      match match_dash s1 with
      | None => None
      | Some s2 =>
          match match_month_dash s2 with
          | None => None
          | Some (m, s3) =>
              match match_day s3 with
              | None => None
              | Some (d, rest) => Some (y, m, d, rest)
              end
          end
      end
  end.

Definition strptime (s : string) : result datetime :=
  match regex_match s with
  | None =>
      Raise (ValueError ("time data '" ++ s
                         ++ "' does not match format '%Y-%m-%d'"))
  | Some (y, m, d, rest) =>
      match rest with
      | String _ _ =>
          Raise (ValueError ("unconverted data remains: " ++ rest))
      | EmptyString =>
          if y <? 1 then Raise (ValueError "year 0 is out of range")
          else if days_in_month y m <? d
               then Raise (ValueError "day is out of range for month")
               else Return (mkdate y m d)
      end
  end.

End Strptime.
Import Strptime.

(* ================================================================= *)
(** ** [pd.date_range(start, end, freq)] *)

(** A naive [pd.Timestamp]: whole seconds since the epoch. *)
Definition Timestamp : Type := Z.

Definition Timestamp_of_datetime (d : datetime) : Timestamp :=
  ordinal d * 86400.

(** [x.timestamp()]: the seconds since the epoch (a naive [Timestamp] is
    read as UTC). *)
Definition Timestamp_timestamp (x : Timestamp) : Z := x.

(** The step of a frequency string, in seconds ([pd.tseries.frequencies.to_offset]
    on the six strings the program can pass). *)
Definition to_offset (freq : string) : Z :=
  if String.eqb freq "1min" then 60
  else if String.eqb freq "5min" then 300
  else if String.eqb freq "15min" then 900
  else if String.eqb freq "30min" then 1800
  else if String.eqb freq "1H" then 3600
  else 86400.

(** [np.arange(b, e, stride)]: [ceil((e - b) / stride)] values from [b]. *)
Definition arange (b e stride : Z) : list Z :=
  let n := (e - b + stride - 1) / stride in
  map (fun k => b + Z.of_nat k * stride) (seq 0 (Z.to_nat n)).

(** pandas' regular range: the last point is the largest [b + k * stride]
    that is not after [end]; [arange] is given an end half a stride later. *)
Definition date_range (start end_ : Timestamp) (freq : string) : list Timestamp :=
  let stride := to_offset freq in
  let b := start in
  let e := b + (end_ - b) / stride * stride + stride / 2 + 1 in
  arange b e stride.

(* ================================================================= *)
(** ** Data frames *)

(** A frame with the five columns of this program; the [timestamp] column
    holds integers when the frame is generated and strings once it has been
    formatted for the export. *)
Record DataFrame (T : Type) : Type := mkDataFrame {
  timestamp : list T;
  open : list float;
  high : list float;
  low : list float;
  close : list float
}.
Arguments mkDataFrame {T}.
Arguments timestamp {T}.
Arguments open {T}.
Arguments high {T}.
Arguments low {T}.
Arguments close {T}.

(** One line of a frame. *)
Record Row (T : Type) : Type := mkRow {
  r_timestamp : T;
  r_open : float;
  r_high : float;
  r_low : float;
  r_close : float
}.
Arguments mkRow {T}.
Arguments r_timestamp {T}.
Arguments r_open {T}.
Arguments r_high {T}.
Arguments r_low {T}.
Arguments r_close {T}.

(** [len(df)]: the length of the index, which is that of the columns. *)
Definition len {T} (df : DataFrame T) : nat := List.length (timestamp df).

(** [df.empty] *)
Definition empty {T} (df : DataFrame T) : bool :=
  match timestamp df with [] => true | _ :: _ => false end.

(** [df.iloc[i]] *)
Definition iloc {T} (df : DataFrame T) (i : nat) : option (Row T) :=
  match nth_error (timestamp df) i, nth_error (open df) i,
        nth_error (high df) i, nth_error (low df) i,
        nth_error (close df) i with
  | Some t, Some o, Some h, Some l, Some c => Some (mkRow t o h l c)
  | _, _, _, _, _ => None
  end.

(** The lines of a frame, in order. *)
Fixpoint zip_rows {T} (ts : list T) (os hs ls cs : list float) : list (Row T) :=
  match ts, os, hs, ls, cs with
  | t :: ts', o :: os', h :: hs', l :: ls', c :: cs' =>
      mkRow t o h l c :: zip_rows ts' os' hs' ls' cs'
  | _, _, _, _, _ => []
  end.

Definition rows {T} (df : DataFrame T) : list (Row T) :=
  zip_rows (timestamp df) (open df) (high df) (low df) (close df).

(* ================================================================= *)
(** ** [create_sample_data] *)

(** The element of [pd.Series(range(n))] at position [i], converted to
    [float64] for the product: an [int64] value, hence below [2^63]. *)
Definition float_of_index (i : nat) : float :=
  PrimFloat.of_uint63 (Uint63.of_Z (Z.of_nat i)).

Definition freq_map : list (string * string) :=
  [("1min", "1min"); ("5min", "5min"); ("15min", "15min");
   ("30min", "30min"); ("1H", "1H"); ("1D", "1D")].

(** [d.get(key, default)] *)
Fixpoint dict_get (d : list (string * string)) (key default : string) : string :=
  match d with
  | [] => default
  | (k, v) :: d' => if String.eqb k key then v else dict_get d' key default
  end.

(** [100 + pd.Series(range(n)) * 0.1] *)
Definition prices_of (n : nat) : list float :=
  map (fun i => (100 + float_of_index i * 0.1)%float) (seq 0 n).

Definition create_sample_data (start_date end_date resolution : string)
  : result (DataFrame Z) :=
  bind_result (strptime start_date) (fun start =>
  bind_result (strptime end_date) (fun end_ =>
    let freq := dict_get freq_map resolution "1D" in
    let date_range_ :=
      date_range (Timestamp_of_datetime start) (Timestamp_of_datetime end_) freq in
    let prices := prices_of (List.length date_range_) in
    Return (mkDataFrame
              (map (fun x => Timestamp_timestamp x * 1000) date_range_)
              prices
              (map (fun p => (p + 0.5)%float) prices)
              (map (fun p => (p - 0.5)%float) prices)
              (map (fun p => (p + 0.2)%float) prices)))).

(** The step of a resolution, in seconds: what [freq_map] and [date_range]
    make of the resolution string. *)
Definition step_seconds (resolution : string) : Z :=
  to_offset (dict_get freq_map resolution "1D").

(** The step of a resolution as the specification gives it, in
    milliseconds: 1, 5, 15 or 30 minutes, one hour, or one day, which is also
    the step of a resolution that is not recognized. *)
Definition resolution_step_ms (resolution : string) : Z :=
  if String.eqb resolution "1min" then 60000
  else if String.eqb resolution "5min" then 300000
  else if String.eqb resolution "15min" then 900000
  else if String.eqb resolution "30min" then 1800000
  else if String.eqb resolution "1H" then 3600000
  else 86400000.

(** The frame of two parsed dates. *)
Definition sample_frame (start end_ : datetime) (resolution : string) : DataFrame Z :=
  let date_range_ :=
    date_range (Timestamp_of_datetime start) (Timestamp_of_datetime end_)
               (dict_get freq_map resolution "1D") in
  let prices := prices_of (List.length date_range_) in
  mkDataFrame (map (fun x => Timestamp_timestamp x * 1000) date_range_)
              prices
              (map (fun p => (p + 0.5)%float) prices)
              (map (fun p => (p - 0.5)%float) prices)
              (map (fun p => (p + 0.2)%float) prices).

(** A frame whose five columns have one length, as every frame of pandas. *)
Definition well_formed {T} (df : DataFrame T) : Prop :=
  List.length (open df) = len df /\ List.length (high df) = len df /\
  List.length (low df) = len df /\ List.length (close df) = len df.

(* ================================================================= *)
(** ** The world of the program: standard output and the file system *)

(** A text file is the list of its lines. *)
Definition file := list string.

Record World : Type := mkWorld {
  stdout : list string;          (* one entry per [print] call, oldest first *)
  dirs : list string;            (* directories made so far *)
  files : list (string * file)   (* path and content, latest write first *)
}.

(** A Python computation: it ends with a value or an exception, and leaves
    the world as it was when it ended. The file system refuses nothing:
    [os.makedirs] and [to_csv] always succeed. *)
Definition Py (A : Type) : Type := World -> result A * World.

Definition ret {A} (a : A) : Py A := fun w => (Return a, w).

Definition bind {A B} (m : Py A) (k : A -> Py B) : Py B :=
  fun w =>
    match m w with
    | (Return a, w') => k a w'
    | (Raise e, w') => (Raise e, w')
    end.

Definition lift {A} (r : result A) : Py A := fun w => (r, w).

(** [try: body  except Exception as e: handler(e)] *)
Definition try_except {A} (body : Py A) (handler : exn -> Py A) : Py A :=
  fun w =>
    match body w with
    | (Return a, w') => (Return a, w')
    | (Raise e, w') => handler e w'
    end.

Declare Scope py_scope.
Delimit Scope py_scope with py.
Notation "x <- m ;; k" := (bind m (fun x => k))
  (at level 61, m at next level, right associativity) : py_scope.
Notation "m ;; k" := (bind m (fun _ => k))
  (at level 61, right associativity) : py_scope.
Local Open Scope py_scope.

Definition print (s : string) : Py unit :=
  fun w => (Return tt, mkWorld (stdout w ++ [s])%list (dirs w) (files w)).

(** [os.makedirs(d, exist_ok=True)] *)
Definition makedirs (d : string) : Py unit :=
  fun w =>
    (Return tt,
     mkWorld (stdout w)
             (if existsb (String.eqb d) (dirs w) then dirs w else d :: dirs w)
             (files w)).

Fixpoint remove_file (path : string) (fs : list (string * file)) : list (string * file) :=
  match fs with
  | [] => []
  | (p, c) :: fs' =>
      if String.eqb p path then remove_file path fs' else (p, c) :: remove_file path fs'
  end.

(** Writing a file replaces what was at the path. *)
Definition write_file (path : string) (content : file) : Py unit :=
  fun w =>
    (Return tt,
     mkWorld (stdout w) (dirs w) ((path, content) :: remove_file path (files w))).

Fixpoint read_file (path : string) (fs : list (string * file)) : option file :=
  match fs with
  | [] => None
  | (p, c) :: fs' => if String.eqb p path then Some c else read_file path fs'
  end.

(** The outcome and the final world of a computation. *)
Definition outcome {A} (m : Py A) (w : World) : result A := fst (m w).
Definition world_after {A} (m : Py A) (w : World) : World := snd (m w).

Definition initial_world : World := mkWorld [] [] [].

(* ================================================================= *)
(** ** The fetch dispatcher *)

(** What a fetch returns: a frame, or Python's [None]. *)
Definition Fetched : Type := option (DataFrame Z).

Definition resolution_map : list (string * list (string * string)) :=
  [("alphavantage",
    [("1min", "1min"); ("5min", "5min"); ("15min", "15min");
     ("30min", "30min"); ("1H", "60min"); ("1D", "daily")]);
   ("polygon",
    [("1min", "minute"); ("5min", "5minute"); ("15min", "15minute");
     ("30min", "30minute"); ("1H", "hour"); ("1D", "day")])].

(** [create_sample_data] as a step of a computation. *)
Definition sample (start_date end_date resolution : string) : Py Fetched :=
  lift (bind_result (create_sample_data start_date end_date resolution)
          (fun df => Return (Some df))).

Definition fetch_alphavantage
  (instrument resolution start_date end_date : string) (api_key : option string)
  (res_map : list (string * list (string * string))) : Py Fetched :=
  print ("Alpha Vantage letöltés: " ++ instrument ++ " (" ++ resolution ++ ")") ;;
  sample start_date end_date resolution.

Definition fetch_polygon
  (instrument resolution start_date end_date : string) (api_key : option string)
  (res_map : list (string * list (string * string))) : Py Fetched :=
  print ("Polygon.io letöltés: " ++ instrument ++ " (" ++ resolution ++ ")") ;;
  sample start_date end_date resolution.

Definition fetch_finnhub
  (instrument resolution start_date end_date : string) (api_key : option string)
  : Py Fetched :=
  print ("Finnhub letöltés: " ++ instrument ++ " (" ++ resolution ++ ")") ;;
  sample start_date end_date resolution.

Definition unknown_source_warning (data_source : string) : string :=
  "Ismeretlen adatforrás: " ++ data_source.

Definition fetch_error_message (e : exn) : string :=
  "⚠️ Hiba az adatletöltés során: " ++ exn_message e.

Section Dispatch.

(** The three data-source branches, so that the dispatcher can be studied
    with integrations other than the stubs of this file. *)
Variables alphavantage polygon :
  string -> string -> string -> string -> option string ->
  list (string * list (string * string)) -> Py Fetched.
Variable finnhub :
  string -> string -> string -> string -> option string -> Py Fetched.

(** The body of the [try]: the branch of the data source. *)
Definition dispatch
  (instrument resolution start_date end_date data_source : string)
  (api_key : option string) : Py Fetched :=
  if String.eqb data_source "alphavantage" then
    alphavantage instrument resolution start_date end_date api_key resolution_map
  else if String.eqb data_source "polygon" then
    polygon instrument resolution start_date end_date api_key resolution_map
  else if String.eqb data_source "finnhub" then
    finnhub instrument resolution start_date end_date api_key
  else
    print (unknown_source_warning data_source) ;;
    sample start_date end_date resolution.

(** The [except] clause. *)
Definition fallback (start_date end_date resolution : string) (e : exn)
  : Py Fetched :=
  print (fetch_error_message e) ;;
  sample start_date end_date resolution.

Definition fetch_data_from_api_with
  (instrument resolution start_date end_date data_source : string)
  (api_key : option string) : Py Fetched :=
  try_except
    (dispatch instrument resolution start_date end_date data_source api_key)
    (fallback start_date end_date resolution).

End Dispatch.

Definition fetch_data_from_api :=
  fetch_data_from_api_with fetch_alphavantage fetch_polygon fetch_finnhub.

(** What the generator gives for the parameters of a fetch, as the outcome
    of a fetch. *)
Definition generated (start_date end_date resolution : string) : result Fetched :=
  bind_result (create_sample_data start_date end_date resolution)
    (fun df => Return (Some df)).

(** What the dispatcher of the program prints before the generator runs. *)
Definition branch_message (instrument resolution data_source : string) : string :=
  if String.eqb data_source "alphavantage" then
    "Alpha Vantage letöltés: " ++ instrument ++ " (" ++ resolution ++ ")"
  else if String.eqb data_source "polygon" then
    "Polygon.io letöltés: " ++ instrument ++ " (" ++ resolution ++ ")"
  else if String.eqb data_source "finnhub" then
    "Finnhub letöltés: " ++ instrument ++ " (" ++ resolution ++ ")"
  else unknown_source_warning data_source.

Definition recognized (data_source : string) : bool :=
  String.eqb data_source "alphavantage" || String.eqb data_source "polygon"
  || String.eqb data_source "finnhub".

(* ================================================================= *)
(** ** Formatting the timestamps *)

Module Strftime.

Definition digit_char (n : Z) : ascii :=
  ascii_of_N (Z.to_N (n mod 10) + 48).

(** [%m], [%d], [%H], [%M]: two digits. *)
Definition pad2 (n : Z) : string :=
  String (digit_char (n / 10)) (String (digit_char n) EmptyString).

(** [%Y]: four digits. *)
Definition pad4 (n : Z) : string :=
  String (digit_char (n / 1000)) (String (digit_char (n / 100)) (pad2 n)).

(** [pd.to_datetime(ms, unit='ms')] followed by
    [.strftime('%Y-%m-%d %H:%M')]: the date and the time of day of the
    minute the instant falls in. *)
Definition strftime (ms : Z) : string :=
  let minutes := ms / 60000 in
  let d := civil_from_days (minutes / 1440) in
  let minute_of_day := minutes mod 1440 in
  pad4 (year d) ++ "-" ++ pad2 (month d) ++ "-" ++ pad2 (day d) ++ " "
  ++ pad2 (minute_of_day / 60) ++ ":" ++ pad2 (minute_of_day mod 60).

End Strftime.
Import Strftime.

(** [d.strftime('%Y-%m-%d')]: a date in the form that the docstring of
    [download_financial_data] asks of [start_date] and [end_date]. *)
Definition isoformat (d : datetime) : string :=
  pad4 (year d) ++ "-" ++ pad2 (month d) ++ "-" ++ pad2 (day d).

(** [os.path.join(a, b)] on POSIX. *)
Definition ends_with_slash (a : string) : bool :=
  match String.length a with
  | O => false
  | S n => match String.get n a with
           | Some c => Ascii.eqb c "/"
           | None => false
           end
  end.

Definition path_join (a b : string) : string :=
  match b with
  | String "/" _ => b
  | _ => match a with
         | EmptyString => b
         | _ => if ends_with_slash a then a ++ b else a ++ "/" ++ b
         end
  end.

Definition string_of_nat (n : nat) : string :=
  DecimalString.NilZero.string_of_uint (Nat.to_uint n).

Definition newline : string := String "010" EmptyString.

(* ================================================================= *)
(** ** The exporter and the batch driver *)

Section Exporter.

(** How [to_csv] writes a [float64] cell (pandas' default formatting). *)
Variable float_repr : float -> string.

(** The fetch that the exporter calls. *)
Variable fetch :
  string -> string -> string -> string -> string -> option string -> Py Fetched.

(** The two assignments to [data['timestamp']]. *)
Definition format_timestamps (data : DataFrame Z) : DataFrame string :=
  mkDataFrame (map strftime (timestamp data))
              (open data) (high data) (low data) (close data).

Definition csv_header : string := "timestamp,open,high,low,close".

Definition csv_line (r : Row string) : string :=
  r_timestamp r ++ "," ++ float_repr (r_open r) ++ "," ++ float_repr (r_high r)
  ++ "," ++ float_repr (r_low r) ++ "," ++ float_repr (r_close r).

(** The text of [data.to_csv(filepath, index=False)]. *)
Definition csv_text (data : DataFrame string) : file :=
  csv_header :: map csv_line (rows data).

Definition to_csv (data : DataFrame string) (filepath : string) : Py unit :=
  write_file filepath (csv_text data).

Definition no_data_warning (instrument resolution : string) : string :=
  "⚠️ Nem sikerült adatot letölteni: " ++ instrument ++ " (" ++ resolution ++ ")".

Definition download_financial_data_with
  (instrument resolution start_date end_date data_source : string)
  (api_key : option string) (data_dir : string) : Py (option string) :=
  makedirs data_dir ;;
  data <- fetch instrument resolution start_date end_date data_source api_key ;;
  match data with
  | None =>
      print (no_data_warning instrument resolution) ;;
      ret None
  | Some data =>
      if empty data then
        print (no_data_warning instrument resolution) ;;
        ret None
      else
        let data := format_timestamps data in
        let filename := instrument ++ "_" ++ resolution ++ ".csv" in
        let filepath := path_join data_dir filename in
        to_csv data filepath ;;
        print ("✅ Adatok mentve: " ++ filepath) ;;
        ret (Some filepath)
  end.

(** [data is None or data.empty] *)
Definition absent_or_empty (data : Fetched) : bool :=
  match data with
  | None => true
  | Some df => empty df
  end.

Definition csv_path (data_dir instrument resolution : string) : string :=
  path_join data_dir (instrument ++ "_" ++ resolution ++ ".csv").

Definition saved_message (filepath : string) : string :=
  "✅ Adatok mentve: " ++ filepath.

Definition instruments : list string := ["EURUSD"; "XAUUSD"; "US30"].
Definition resolutions : list string := ["1min"; "5min"; "15min"; "30min"; "1H"].

(** The pairs of the batch, in the order of the two loops. *)
Definition batch_pairs : list (string * string) :=
  list_prod instruments resolutions.

(** A fetch result that the exporter writes. *)
Definition delivered (data : Fetched) : bool := negb (absent_or_empty data).

(** [if f:] on the result of the export: [None] and the empty string are
    false. *)
Definition truthy (f : option string) : bool :=
  match f with
  | Some (String _ _) => true
  | _ => false
  end.

(** [for x in xs: body], the list [all_files] being passed along. *)
Fixpoint for_each {A} (xs : list A) (body : A -> list string -> Py (list string))
  (all_files : list string) : Py (list string) :=
  match xs with
  | [] => ret all_files
  | x :: xs' =>
      all_files' <- body x all_files ;;
      for_each xs' body all_files'
  end.

Definition download_all_assets_with
  (data_source : string) (api_key : option string) (data_dir : string)
  : Py (list string) :=
  let start_date := "2025-01-01" in
  let end_date := "2025-09-30" in
  all_files <-
    for_each instruments (fun inst =>
      for_each resolutions (fun res all_files =>
        print (newline ++ "📊 Letöltés: " ++ inst ++ " - " ++ res) ;;
        f <- download_financial_data_with inst res start_date end_date
               data_source api_key data_dir ;;
        match f with
        | Some path => if truthy f then ret (all_files ++ [path])%list
                       else ret all_files
        | None => ret all_files
        end)) [] ;;
  print (newline ++ "✅ Összesen " ++ string_of_nat (List.length all_files)
         ++ " fájl mentve.") ;;
  ret all_files.

End Exporter.

Definition download_financial_data (float_repr : float -> string) :=
  download_financial_data_with float_repr fetch_data_from_api.

Definition download_all_assets (float_repr : float -> string) :=
  download_all_assets_with float_repr fetch_data_from_api.

(* ================================================================= *)
(** ** Reading an exported file back *)

Module CsvReader.

(** Modelled from the spec: the reader of the round-trip property. The
    repository only writes files; the reader is the inverse of the format
    the specification fixes: the header [timestamp,open,high,low,close],
    then one line per row, the five cells separated by commas, the
    timestamp as [YYYY-MM-DD HH:MM]. How a number cell is converted back is
    a parameter, as the way it is printed is. *)
Fixpoint split_on (sep : ascii) (s : string) : list string :=
  match s with
  | EmptyString => [EmptyString]
  | String c r =>
      if Ascii.eqb c sep then EmptyString :: split_on sep r
      else match split_on sep r with
           | cell :: cells => String c cell :: cells
           | [] => [String c EmptyString]
           end
  end.

Fixpoint no_char (c : ascii) (s : string) : bool :=
  match s with
  | EmptyString => true
  | String a r => negb (Ascii.eqb a c) && no_char c r
  end.

Definition two_digits (a b : ascii) : option Z :=
  if is_digit a && is_digit b then Some (10 * digit_val a + digit_val b)
  else None.

(** Modelled from the spec: the instant, in milliseconds, that a cell
    [YYYY-MM-DD HH:MM] names. *)
Definition parse_timestamp (s : string) : option Z :=
  match s with
  | String y1 (String y2 (String y3 (String y4 (String s1
    (String m1 (String m2 (String s2
    (String d1 (String d2 (String s3
    (String h1 (String h2 (String s4
    (String n1 (String n2 EmptyString))))))))))))))) =>
      if Ascii.eqb s1 "-" && Ascii.eqb s2 "-" && Ascii.eqb s3 " "
         && Ascii.eqb s4 ":"
      then
        match two_digits y1 y2, two_digits y3 y4, two_digits m1 m2,
              two_digits d1 d2, two_digits h1 h2, two_digits n1 n2 with
        | Some yh, Some yl, Some m, Some d, Some h, Some n =>
            let date := mkdate (100 * yh + yl) m d in
            if valid_date date && (h <? 24) && (n <? 60)
            then Some ((ordinal date * 1440 + h * 60 + n) * 60000)
            else None
        | _, _, _, _, _, _ => None
        end
      else None
  | _ => None
  end.

Section Reader.

Variable float_of_string : string -> option float.

(** Modelled from the spec: one line of the file as a row. *)
Definition parse_line (line : string) : option (Row Z) :=
  match split_on "," line with
  | [t; o; h; l; c] =>
      match parse_timestamp t, float_of_string o, float_of_string h,
            float_of_string l, float_of_string c with
      | Some t', Some o', Some h', Some l', Some c' =>
          Some (mkRow t' o' h' l' c')
      | _, _, _, _, _ => None
      end
  | _ => None
  end.

Fixpoint parse_lines (lines : list string) : option (list (Row Z)) :=
  match lines with
  | [] => Some []
  | line :: lines' =>
      match parse_line line, parse_lines lines' with
      | Some r, Some rs => Some (r :: rs)
      | _, _ => None
      end
  end.

(** Modelled from the spec: the rows of a file with the header of the
    export. *)
Definition read_csv (f : file) : option (list (Row Z)) :=
  match f with
  | header :: lines =>
      if String.eqb header "timestamp,open,high,low,close"
      then parse_lines lines else None
  | [] => None
  end.

End Reader.

End CsvReader.
Import CsvReader.

(** The four prices of a row. *)
Definition ohlc {T} (r : Row T) : float * float * float * float :=
  (r_open r, r_high r, r_low r, r_close r).

(** What the reader makes of the line of a row: the timestamp is that of
    the minute. *)
Definition read_back (r : Row Z) : Row Z :=
  mkRow (60000 * (r_timestamp r / 60000))
        (r_open r) (r_high r) (r_low r) (r_close r).

(** The instants whose year has four digits: 0001-01-01 00:00 up to the end
    of 9999-12-31, in milliseconds. *)
Definition four_digit_year (ms : Z) : Prop :=
  -719162 * 86400000 <= ms < 2932897 * 86400000.

(* ================================================================= *)
(** ** A number format that reads back what it writes *)

Module ExactFormat.

(** The formats of the round-trip property are parameters; this one shows
    that what is asked of them can be met. A cell is the decimal numeral of
    an integer that codes the float: the five special values are 0 to 4, a
    finite one is its mantissa times 4096 plus its exponent moved by 2048,
    with the sign of the float. *)
Definition code (x : spec_float) : Z :=
  match x with
  | S754_zero false => 0
  | S754_zero true => 1
  | S754_infinity false => 2
  | S754_infinity true => 3
  | S754_nan => 4
  | S754_finite s m e =>
      let c := Z.pos m * 4096 + (e + 2048) in
      if s then - c else c
  end.

Definition decode (c : Z) : spec_float :=
  if c =? 0 then S754_zero false
  else if c =? 1 then S754_zero true
  else if c =? 2 then S754_infinity false
  else if c =? 3 then S754_infinity true
  else if c =? 4 then S754_nan
  else S754_finite (c <? 0) (Z.to_pos (Z.abs c / 4096))
                   (Z.abs c mod 4096 - 2048).

Definition float_repr (x : float) : string :=
  NilEmpty.string_of_int (Z.to_int (code (Prim2SF x))).

Definition float_of_string (s : string) : option float :=
  option_map (fun d => SF2Prim (decode (Z.of_int d)))
             (NilEmpty.int_of_string s).

End ExactFormat.

(* ================================================================= *)
(** ** Binary64 rounding, for the proofs about the prices *)

Module Binary64.

(** The quotient of [m] by [2^n], rounded to the nearest integer, a tie going
    to the even one. *)
Definition rne (m n : Z) : Z :=
  let q := m / 2 ^ n in
  let r := m mod 2 ^ n in
  if (2 ^ n <? 2 * r) || ((2 * r =? 2 ^ n) && Z.odd q) then q + 1 else q.

(** The record that [n] steps of [shr_1] make of [m]. *)
Definition shifted (m n : Z) : shr_record :=
  Build_shr_record (m / 2 ^ n) (Z.odd (m / 2 ^ (n - 1)))
                   (negb (m mod 2 ^ (n - 1) =? 0)).

(** The place of a float that is not negative among the others: a finite
    one by its value in units of [2^-1074], the infinity above them all. *)
Definition ord (x : spec_float) : Z :=
  match x with
  | S754_zero _ => 0
  | S754_finite false m e => Z.pos m * 2 ^ (e + 1074)
  | S754_infinity false => 2 ^ 2098
  | _ => -1
  end.

Definition not_negative (x : spec_float) : bool :=
  match x with
  | S754_zero _ | S754_finite false _ _ | S754_infinity false => true
  | _ => false
  end.

(** Rounding to 53 significant bits, on values counted in units of
    [2^-1074]: the last [k] bits are rounded away, where [k] is what the
    value has beyond 53 bits. *)
Definition rnd (V : Z) : Z :=
  let k := Z.max (Z.log2 V + 1 - 53) 0 in
  rne V k * 2 ^ k.

(** The same, with the overflow to infinity. *)
Definition rnd_inf (V : Z) : Z := Z.min (rnd V) (2 ^ 2098).

Definition not_positive (x : spec_float) : bool :=
  match x with
  | S754_zero _ | S754_finite true _ _ | S754_infinity true => true
  | _ => false
  end.

(** A float with the given sign, or a zero. *)
Definition has_sign (sx : bool) (x : spec_float) : bool :=
  match x with
  | S754_zero _ => true
  | S754_finite s _ _ | S754_infinity s => Bool.eqb s sx
  | S754_nan => false
  end.

End Binary64.
Import Binary64.

(** [high - low == 1.0] on the row of index [i]. *)
Definition unit_spread (i : nat) : bool :=
  let p := (100 + float_of_index i * 0.1)%float in
  ((p + 0.5) - (p - 0.5) =? 1)%float.

(* ================================================================= *)
(** * Properties *)

(** ** Lists and columns *)

Lemma nth_error_map_seq {A} (f : nat -> A) (n i : nat) :
  (i < n)%nat -> nth_error (map f (seq 0 n)) i = Some (f i).
Proof.
  intros Hi.
  rewrite nth_error_map, nth_error_seq.
  destruct (Nat.ltb_spec i n) as [_ | Hge]; [reflexivity | lia].
Qed.

Lemma length_map_seq {A} (f : nat -> A) (n : nat) :
  List.length (map f (seq 0 n)) = n.
Proof. now rewrite length_map, length_seq. Qed.

Lemma length_prices_of (n : nat) : List.length (prices_of n) = n.
Proof. apply length_map_seq. Qed.

Lemma nth_error_prices_of (n i : nat) :
  (i < n)%nat ->
  nth_error (prices_of n) i = Some (100 + float_of_index i * 0.1)%float.
Proof. intros Hi. unfold prices_of. now rewrite nth_error_map_seq. Qed.

(** ** The regular range *)

Lemma arange_length (b e stride : Z) :
  List.length (arange b e stride) = Z.to_nat ((e - b + stride - 1) / stride).
Proof. unfold arange. apply length_map_seq. Qed.

Lemma arange_nth (b e stride : Z) (i : nat) :
  (i < List.length (arange b e stride))%nat ->
  nth_error (arange b e stride) i = Some (b + Z.of_nat i * stride).
Proof.
  rewrite arange_length. intros Hi. unfold arange.
  now rewrite nth_error_map_seq.
Qed.

Lemma to_offset_pos (freq : string) : 0 < to_offset freq.
Proof.
  unfold to_offset.
  repeat match goal with |- context [if ?c then _ else _] => destruct c end; lia.
Qed.

(** The number of points of a range whose stride is positive. *)
Lemma range_count (b end_ stride : Z) :
  0 < stride ->
  ((b + (end_ - b) / stride * stride + stride / 2 + 1) - b + stride - 1) / stride
  = (end_ - b) / stride + 1.
Proof.
  intros Hs.
  replace (b + (end_ - b) / stride * stride + stride / 2 + 1 - b + stride - 1)
    with ((end_ - b) / stride * stride + (stride / 2 + stride)) by ring.
  rewrite Z.div_add_l by lia.
  f_equal.
  assert (0 <= stride / 2 < stride) by (split; [apply Z.div_pos | apply Z.div_lt_upper_bound]; lia).
  symmetry. apply (Z.div_unique _ _ 1 (stride / 2)); lia.
Qed.

Lemma date_range_length (start end_ : Timestamp) (freq : string) :
  List.length (date_range start end_ freq)
  = Z.to_nat ((end_ - start) / to_offset freq + 1).
Proof.
  unfold date_range. rewrite arange_length, range_count; [reflexivity|].
  apply to_offset_pos.
Qed.

Lemma date_range_nth (start end_ : Timestamp) (freq : string) (i : nat) :
  (i < List.length (date_range start end_ freq))%nat ->
  nth_error (date_range start end_ freq) i
  = Some (start + Z.of_nat i * to_offset freq).
Proof. unfold date_range. apply arange_nth. Qed.

(** ** The generator *)

Lemma step_seconds_pos (resolution : string) : 0 < step_seconds resolution.
Proof. apply to_offset_pos. Qed.

Lemma create_sample_data_parsed (start_date end_date resolution : string) start end_ :
  strptime start_date = Return start ->
  strptime end_date = Return end_ ->
  create_sample_data start_date end_date resolution
  = Return (sample_frame start end_ resolution).
Proof.
  intros Hs He. unfold create_sample_data. rewrite Hs, He. reflexivity.
Qed.

Lemma create_sample_data_inv (start_date end_date resolution : string) df :
  create_sample_data start_date end_date resolution = Return df ->
  exists start end_,
    strptime start_date = Return start /\ strptime end_date = Return end_ /\
    df = sample_frame start end_ resolution.
Proof.
  unfold create_sample_data.
  destruct (strptime start_date) as [start|]; cbn [bind_result]; [|discriminate].
  destruct (strptime end_date) as [end_|]; cbn [bind_result]; [|discriminate].
  intros H. exists start, end_. repeat split.
  change (Return (sample_frame start end_ resolution) = Return df) in H.
  congruence.
Qed.

Lemma sample_frame_len start end_ resolution :
  len (sample_frame start end_ resolution)
  = Z.to_nat ((Timestamp_of_datetime end_ - Timestamp_of_datetime start)
              / step_seconds resolution + 1).
Proof.
  unfold len, sample_frame; cbn [timestamp].
  now rewrite length_map, date_range_length.
Qed.

Lemma sample_frame_well_formed start end_ resolution :
  well_formed (sample_frame start end_ resolution).
Proof.
  unfold well_formed, len, sample_frame; cbn [timestamp open high low close].
  rewrite !length_map, length_prices_of. auto.
Qed.

Lemma sample_frame_iloc start end_ resolution (i : nat) :
  (i < len (sample_frame start end_ resolution))%nat ->
  iloc (sample_frame start end_ resolution) i
  = Some (let p := (100 + float_of_index i * 0.1)%float in
          mkRow ((Timestamp_of_datetime start + Z.of_nat i * step_seconds resolution) * 1000)
                p (p + 0.5)%float (p - 0.5)%float (p + 0.2)%float).
Proof.
  unfold len, sample_frame, iloc; cbn [timestamp open high low close].
  rewrite length_map. intros Hi.
  rewrite !nth_error_map, (nth_error_prices_of _ _ Hi), (date_range_nth _ _ _ _ Hi).
  reflexivity.
Qed.

Lemma iloc_lt {T} (df : DataFrame T) (i : nat) row :
  iloc df i = Some row -> (i < len df)%nat.
Proof.
  unfold iloc, len.
  destruct (nth_error (timestamp df) i) eqn:E; [|discriminate].
  intros _. apply nth_error_Some. congruence.
Qed.

(** C1. For every date range that parses and every resolution, line [i]
    (counted from 0) of the frame of [create_sample_data] has
    [open = 100 + i * 0.1], [high = open + 0.5], [low = open - 0.5] and
    [close = open + 0.2], and the frame has such a line for every [i] below
    its length. The equations are read as the program computes them: the
    sums, the difference and the product are those of [float64]. *)
Theorem create_sample_data_row_values
  (start_date end_date resolution : string) (df : DataFrame Z) (i : nat) :
  create_sample_data start_date end_date resolution = Return df ->
  (i < len df)%nat ->
  exists row,
    iloc df i = Some row /\
    r_open row = (100 + float_of_index i * 0.1)%float /\
    r_high row = (r_open row + 0.5)%float /\
    r_low row = (r_open row - 0.5)%float /\
    r_close row = (r_open row + 0.2)%float.
Proof.
  intros Hdf Hi.
  destruct (create_sample_data_inv _ _ _ _ Hdf) as (start & end_ & _ & _ & ->).
  rewrite (sample_frame_iloc _ _ _ _ Hi).
  eexists; split; [reflexivity|]. cbn [r_open r_high r_low r_close]. auto.
Qed.

Lemma create_sample_data_row_values_witness :
  exists row,
    iloc (mkDataFrame [1735689600000; 1735776000000; 1735862400000]
            [100%float; 100.1%float; 100.2%float]
            [100.5%float; 100.6%float; 100.7%float]
            [99.5%float; 99.6%float; 99.7%float]
            [100.2%float; 100.3%float; 100.4%float]) 2 = Some row /\
    r_open row = (100 + float_of_index 2 * 0.1)%float /\
    r_high row = (r_open row + 0.5)%float /\
    r_low row = (r_open row - 0.5)%float /\
    r_close row = (r_open row + 0.2)%float.
Proof.
  apply (create_sample_data_row_values "2025-01-01" "2025-01-03" "1D").
  - vm_compute. reflexivity.
  - vm_compute. lia.
Defined.

(** ** The calendar *)

Ltac split_ifs :=
  repeat match goal with
    | |- context [if ?c then _ else _] =>
        let E := fresh "E" in destruct c eqn:E
    | H : context [if ?c then _ else _] |- _ =>
        let E := fresh "E" in destruct c eqn:E
    end.

Ltac bool_to_Z :=
  rewrite ?andb_true_iff, ?orb_true_iff, ?orb_false_iff, ?Z.eqb_eq, ?Z.eqb_neq,
    ?Z.leb_le, ?Z.leb_gt, ?Z.ltb_lt, ?Z.ltb_ge in *.

Ltac euclid := Z.div_mod_to_equations; lia.

Lemma is_leap_cases y :
  (is_leap y = true /\ y mod 4 = 0 /\ (y mod 100 <> 0 \/ y mod 400 = 0)) \/
  (is_leap y = false /\ (y mod 4 <> 0 \/ (y mod 100 = 0 /\ y mod 400 <> 0))).
Proof.
  unfold is_leap.
  destruct (y mod 4 =? 0) eqn:E4; destruct (y mod 100 =? 0) eqn:E100;
    destruct (y mod 400 =? 0) eqn:E400;
    rewrite ?Z.eqb_eq, ?Z.eqb_neq in *; cbn;
    first [ left; split; [reflexivity | euclid]
          | right; split; [reflexivity | euclid]
          | exfalso; euclid ].
Qed.

Lemma civil_days_roundtrip z : ordinal (civil_from_days z) = z.
Proof.
  unfold ordinal, civil_from_days, days_from_civil. cbn [year month day].
  split_ifs; euclid.
Qed.

Lemma civil_from_days_month z : 1 <= month (civil_from_days z) <= 12.
Proof. unfold civil_from_days. cbn [year month day]. split_ifs; euclid. Qed.

Lemma civil_from_days_day z : 1 <= day (civil_from_days z) <= 31.
Proof. unfold civil_from_days. cbn [year month day]. split_ifs; euclid. Qed.

(** 0001-01-01 is day -719162 and 9999-12-31 is day 2932896. *)
Lemma civil_from_days_year z :
  -719162 <= z <= 2932896 -> 1 <= year (civil_from_days z) <= 9999.
Proof.
  unfold civil_from_days. cbn [year month day]. intros. split_ifs; euclid.
Qed.

Lemma ordinal_decomp y m d :
  1 <= m <= 12 -> days_from_civil y m d = jan1 y + yday y m d.
Proof.
  intros Hm. unfold days_from_civil, jan1, yday, days_before_month, leap_day.
  destruct (is_leap_cases y) as [[-> L] | [-> L]]; split_ifs; bool_to_Z; euclid.
Qed.

Lemma jan1_next y : jan1 (y + 1) = jan1 y + 365 + leap_day y.
Proof.
  unfold jan1, leap_day. replace (y + 1 - 1) with y by ring.
  destruct (is_leap_cases y) as [[-> L] | [-> L]]; euclid.
Qed.

Lemma jan1_mono y1 y2 : y1 <= y2 -> jan1 y1 <= jan1 y2.
Proof. unfold jan1. intros. euclid. Qed.

Lemma valid_date_month d : valid_date d = true -> 1 <= month d <= 12.
Proof. unfold valid_date. bool_to_Z. lia. Qed.

Lemma yday_range y m d :
  valid_date (mkdate y m d) = true -> 0 <= yday y m d < 365 + leap_day y.
Proof.
  unfold valid_date, yday, days_before_month, days_in_month, leap_day;
    cbn [year month day].
  rewrite !andb_true_iff, !Z.leb_le.
  destruct (is_leap y); intros H; split_ifs; bool_to_Z; euclid.
Qed.

Lemma yday_month_end y m d :
  valid_date (mkdate y m d) = true -> yday y m d < yday y (m + 1) 1.
Proof.
  unfold valid_date, yday, days_before_month, days_in_month, leap_day;
    cbn [year month day].
  rewrite !andb_true_iff, !Z.leb_le.
  destruct (is_leap y); intros H; split_ifs; bool_to_Z; euclid.
Qed.

Lemma yday_month_mono y m1 m2 :
  1 <= m1 -> m1 <= m2 -> yday y m1 1 <= yday y m2 1.
Proof.
  unfold yday, days_before_month, leap_day.
  destruct (is_leap y); intros H1 H2; split_ifs; bool_to_Z; euclid.
Qed.

Lemma yday_lt y m1 d1 m2 d2 :
  valid_date (mkdate y m1 d1) = true -> valid_date (mkdate y m2 d2) = true ->
  m1 < m2 \/ (m1 = m2 /\ d1 < d2) -> yday y m1 d1 < yday y m2 d2.
Proof.
  intros V1 V2 [H | [-> H]].
  - pose proof (yday_month_end _ _ _ V1).
    pose proof (valid_date_month _ V1) as M1. cbn [month] in M1.
    pose proof (yday_month_mono y (m1 + 1) m2 ltac:(lia) ltac:(lia)).
    assert (yday y m2 1 <= yday y m2 d2).
    { unfold valid_date in V2. cbn [year month day] in V2.
      rewrite !andb_true_iff, !Z.leb_le in V2. unfold yday. lia. }
    lia.
  - unfold yday. lia.
Qed.

(** The day number grows with the calendar. *)
Lemma ordinal_lt a b :
  valid_date a = true -> valid_date b = true -> date_lt a b ->
  ordinal a < ordinal b.
Proof.
  destruct a as [y1 m1 d1], b as [y2 m2 d2].
  unfold date_lt, ordinal; cbn [year month day]. intros V1 V2 H.
  pose proof (yday_range _ _ _ V1). pose proof (yday_range _ _ _ V2).
  pose proof (valid_date_month _ V1) as M1.
  pose proof (valid_date_month _ V2) as M2. cbn [month] in M1, M2.
  rewrite !ordinal_decomp by assumption.
  destruct H as [H | [-> H]].
  - pose proof (jan1_next y1). pose proof (jan1_mono (y1 + 1) y2 ltac:(lia)). lia.
  - pose proof (yday_lt _ _ _ _ _ V1 V2 H). lia.
Qed.

Lemma ordinal_le a b :
  valid_date a = true -> valid_date b = true -> date_le a b ->
  ordinal a <= ordinal b.
Proof.
  intros Va Vb [H | ->]; [|lia].
  pose proof (ordinal_lt _ _ Va Vb H). lia.
Qed.

(** ** Parsing dates *)

Lemma Some_pair_inj {A B} (a c : A) (b d : B) :
  Some (a, b) = Some (c, d) -> a = c /\ b = d.
Proof. intros H. split; congruence. Qed.

Lemma char_in_spec lo hi c :
  char_in lo hi c = true ->
  Z.of_N (N_of_ascii lo) <= Z.of_N (N_of_ascii c) <= Z.of_N (N_of_ascii hi).
Proof. unfold char_in. rewrite andb_true_iff, !N.leb_le. lia. Qed.

Lemma digit_val_eq c : digit_val c = Z.of_N (N_of_ascii c) - 48.
Proof. reflexivity. Qed.

(** Turns the tests on characters into bounds on their codes. *)
Ltac chars :=
  repeat match goal with
    | H : _ && _ = true |- _ => apply andb_true_iff in H; destruct H
    | H : _ || _ = true |- _ => apply orb_true_iff in H; destruct H
    | H : Ascii.eqb _ _ = true |- _ => apply Ascii.eqb_eq in H; subst
    | H : char_in _ _ _ = true |- _ => apply char_in_spec in H
    | H : is_digit _ = true |- _ => apply char_in_spec in H
    end;
  rewrite ?digit_val_eq in *;
  repeat match goal with
    | H : context [N_of_ascii (Ascii ?a ?b ?c ?d ?e ?f ?g ?h)] |- _ =>
        let v := eval vm_compute in (N_of_ascii (Ascii a b c d e f g h)) in
        change (N_of_ascii (Ascii a b c d e f g h)) with v in H
    | |- context [N_of_ascii (Ascii ?a ?b ?c ?d ?e ?f ?g ?h)] =>
        let v := eval vm_compute in (N_of_ascii (Ascii a b c d e f g h)) in
        change (N_of_ascii (Ascii a b c d e f g h)) with v
    end.

Lemma match_year_range s y rest :
  match_year s = Some (y, rest) -> 0 <= y <= 9999.
Proof.
  unfold match_year.
  destruct s as [|a [|b [|c [|d r]]]]; try discriminate.
  destruct (is_digit a && is_digit b && is_digit c && is_digit d) eqn:E;
    [|discriminate].
  intros H; apply Some_pair_inj in H; destruct H as [<- _]. chars. lia.
Qed.

Lemma match_month_dash_range s m rest :
  match_month_dash s = Some (m, rest) -> 1 <= m <= 12.
Proof.
  unfold match_month_dash.
  destruct s as [|a [|b r]]; try discriminate.
  destruct (Ascii.eqb b "-").
  - destruct (char_in "1" "9" a) eqn:E; [|discriminate].
    intros H; apply Some_pair_inj in H; destruct H as [<- _]. chars. lia.
  - destruct r as [|c r]; [discriminate|].
    destruct (_ && _) eqn:E; [|discriminate].
    intros H; apply Some_pair_inj in H; destruct H as [<- _]. chars; lia.
Qed.

Lemma match_day_range s d rest :
  match_day s = Some (d, rest) -> 1 <= d <= 31.
Proof.
  unfold match_day.
  destruct s as [|a [|b r]]; try discriminate.
  - destruct (char_in "1" "9" a) eqn:E; [|discriminate].
    intros H; apply Some_pair_inj in H; destruct H as [<- _]. chars. lia.
  - destruct (_ || _) eqn:E.
    + intros H; apply Some_pair_inj in H; destruct H as [<- _]. chars; lia.
    + destruct (char_in "1" "9" a) eqn:E1.
      * intros H; apply Some_pair_inj in H; destruct H as [<- _]. chars. lia.
      * destruct (Ascii.eqb a " " && char_in "1" "9" b) eqn:E2; [|discriminate].
        intros H; apply Some_pair_inj in H; destruct H as [<- _]. chars. lia.
Qed.

(** A date that [strptime] returns passed the checks of the constructor. *)
Lemma strptime_valid s d : strptime s = Return d -> valid_date d = true.
Proof.
  unfold strptime, regex_match.
  destruct (match_year s) as [[y s1]|] eqn:Ey; [|discriminate].
  destruct (match_dash s1) as [s2|]; [|discriminate].
  destruct (match_month_dash s2) as [[m s3]|] eqn:Em; [|discriminate].
  destruct (match_day s3) as [[d0 rest]|] eqn:Ed; [|discriminate].
  destruct rest; [|discriminate].
  destruct (y <? 1) eqn:E1; [discriminate|].
  destruct (days_in_month y m <? d0) eqn:E2; [discriminate|].
  intros H; injection H as <-.
  apply match_year_range in Ey. apply match_month_dash_range in Em.
  apply match_day_range in Ed.
  unfold valid_date; cbn [year month day]. bool_to_Z. lia.
Qed.

(** ** The timestamps of the generator *)

Lemma step_seconds_spec resolution :
  step_seconds resolution * 1000 = resolution_step_ms resolution.
Proof.
  unfold step_seconds, resolution_step_ms, freq_map, dict_get.
  rewrite !(String.eqb_sym _ resolution).
  destruct (String.eqb resolution "1min"); [reflexivity|].
  destruct (String.eqb resolution "5min"); [reflexivity|].
  destruct (String.eqb resolution "15min"); [reflexivity|].
  destruct (String.eqb resolution "30min"); [reflexivity|].
  destruct (String.eqb resolution "1H"); [reflexivity|].
  destruct (String.eqb resolution "1D"); reflexivity.
Qed.

Lemma resolution_step_ms_pos resolution : 0 < resolution_step_ms resolution.
Proof. unfold resolution_step_ms. split_ifs; lia. Qed.

Lemma sample_frame_timestamp start end_ resolution (i : nat) :
  (i < len (sample_frame start end_ resolution))%nat ->
  nth_error (timestamp (sample_frame start end_ resolution)) i
  = Some (Timestamp_of_datetime start * 1000
          + Z.of_nat i * resolution_step_ms resolution).
Proof.
  intros Hi. rewrite <- step_seconds_spec.
  unfold len, sample_frame in *; cbn [timestamp] in *.
  rewrite length_map in Hi.
  rewrite nth_error_map, (date_range_nth _ _ _ _ Hi).
  unfold Timestamp_timestamp, step_seconds. cbn [option_map]. f_equal. ring.
Qed.



(** ** The fetch dispatcher *)

Lemma sample_run start_date end_date resolution w :
  sample start_date end_date resolution w
  = (generated start_date end_date resolution, w).
Proof. reflexivity. Qed.

Lemma print_then_sample msg start_date end_date resolution w :
  (print msg ;; sample start_date end_date resolution) w
  = (generated start_date end_date resolution,
     mkWorld (stdout w ++ [msg]) (dirs w) (files w)).
Proof. reflexivity. Qed.

Opaque sample.

Lemma dispatch_run instrument resolution start_date end_date data_source api_key w :
  dispatch fetch_alphavantage fetch_polygon fetch_finnhub
    instrument resolution start_date end_date data_source api_key w
  = (generated start_date end_date resolution,
     mkWorld (stdout w ++ [branch_message instrument resolution data_source])
             (dirs w) (files w)).
Proof.
  unfold dispatch, branch_message, fetch_alphavantage, fetch_polygon, fetch_finnhub.
  destruct (String.eqb data_source "alphavantage"); [apply print_then_sample|].
  destruct (String.eqb data_source "polygon"); [apply print_then_sample|].
  destruct (String.eqb data_source "finnhub"); apply print_then_sample.
Qed.

(** The run of the dispatcher of the program: the branch prints its line and
    calls the generator; when that raises, the handler prints the error and
    calls the generator again. *)
Lemma fetch_data_from_api_run
  instrument resolution start_date end_date data_source api_key w :
  fetch_data_from_api instrument resolution start_date end_date data_source api_key w
  = (generated start_date end_date resolution,
     mkWorld
       (stdout w ++ branch_message instrument resolution data_source
          :: match generated start_date end_date resolution with
             | Return _ => []
             | Raise e => [fetch_error_message e]
             end)
       (dirs w) (files w)).
Proof.
  unfold fetch_data_from_api, fetch_data_from_api_with, try_except, fallback.
  rewrite dispatch_run.
  destruct (generated start_date end_date resolution) as [a | e] eqn:G.
  - reflexivity.
  - rewrite print_then_sample, G. cbn [stdout dirs files].
    rewrite <- app_assoc. reflexivity.
Qed.

Lemma recognized_false_message instrument resolution data_source :
  recognized data_source = false ->
  branch_message instrument resolution data_source
  = unknown_source_warning data_source.
Proof.
  unfold recognized, branch_message. intros H.
  apply orb_false_iff in H. destruct H as [H H3].
  apply orb_false_iff in H. destruct H as [H1 H2].
  now rewrite H1, H2, H3.
Qed.

(** C4. For every data-source selector, recognized or not, the outcome of
    [fetch_data_from_api] is that of [create_sample_data] on the same start
    date, end date and resolution: the same frame, or the same exception
    when the generator raises. A selector that is not recognized has the
    warning printed, and adds no failure of its own. *)
Theorem fetch_is_the_generator
  (instrument resolution start_date end_date data_source : string)
  (api_key : option string) (w : World) :
  let m := fetch_data_from_api instrument resolution start_date end_date
             data_source api_key in
  outcome m w = generated start_date end_date resolution /\
  (forall df, create_sample_data start_date end_date resolution = Return df ->
              outcome m w = Return (Some df)) /\
  (recognized data_source = false ->
   exists rest,
     stdout (world_after m w)
     = (stdout w ++ unknown_source_warning data_source :: rest)%list).
Proof.
  cbv zeta. unfold outcome, world_after. rewrite fetch_data_from_api_run.
  cbn [fst snd stdout]. repeat split.
  - intros df Hdf. unfold generated. rewrite Hdf. reflexivity.
  - intros Hr. rewrite (recognized_false_message _ _ _ Hr). eauto.
Qed.

(** C10. The outcome of [fetch_data_from_api] depends on the start date,
    the end date and the resolution only: two calls that agree on these
    three return the same frame (or raise the same exception) whatever the
    instruments, the API keys, the data sources and the worlds they run
    in. *)
Theorem fetch_ignores_instrument_and_key
  (instrument1 instrument2 resolution start_date end_date : string)
  (data_source1 data_source2 : string) (api_key1 api_key2 : option string)
  (w1 w2 : World) :
  outcome (fetch_data_from_api instrument1 resolution start_date end_date
             data_source1 api_key1) w1
  = outcome (fetch_data_from_api instrument2 resolution start_date end_date
               data_source2 api_key2) w2.
Proof.
  unfold outcome. now rewrite !fetch_data_from_api_run.
Qed.

Section AnyIntegration.

Variables alphavantage polygon :
  string -> string -> string -> string -> option string ->
  list (string * list (string * string)) -> Py Fetched.
Variable finnhub :
  string -> string -> string -> string -> option string -> Py Fetched.

Variables instrument resolution start_date end_date data_source : string.
Variable api_key : option string.

Let body : Py Fetched :=
  dispatch alphavantage polygon finnhub
    instrument resolution start_date end_date data_source api_key.
Let fetch : Py Fetched :=
  fetch_data_from_api_with alphavantage polygon finnhub
    instrument resolution start_date end_date data_source api_key.

Lemma fetch_branch_returns w a :
  outcome body w = Return a -> fetch w = body w.
Proof.
  unfold outcome, fetch, fetch_data_from_api_with, try_except. fold body.
  destruct (body w) as [[a' | e] w']; cbn [fst]; [reflexivity | discriminate].
Qed.

Lemma fetch_branch_raises w e :
  outcome body w = Raise e ->
  fetch w
  = (generated start_date end_date resolution,
     mkWorld (stdout (world_after body w)
              ++ [fetch_error_message e])
             (dirs (world_after body w)) (files (world_after body w))).
Proof.
  unfold outcome, world_after, fetch, fetch_data_from_api_with, try_except.
  fold body.
  destruct (body w) as [[a' | e'] w']; cbn [fst snd]; [discriminate|].
  intros H. injection H as ->. unfold fallback. apply print_then_sample.
Qed.

End AnyIntegration.

Lemma generated_parsed start_date end_date resolution start end_ :
  strptime start_date = Return start ->
  strptime end_date = Return end_ ->
  generated start_date end_date resolution
  = Return (Some (sample_frame start end_ resolution)).
Proof.
  intros Hs He. unfold generated.
  now rewrite (create_sample_data_parsed _ _ _ _ _ Hs He).
Qed.

Lemma generated_raises start_date end_date resolution e :
  generated start_date end_date resolution = Raise e ->
  create_sample_data start_date end_date resolution = Raise e.
Proof.
  unfold generated.
  destruct (create_sample_data start_date end_date resolution);
    cbn [bind_result]; congruence.
Qed.


(** An integration that fails: the dispatcher answers with the frame of the
    generator. *)
Example failing_integration_falls_back :
  let network_down :=
    fun (_ _ _ _ : string) (_ : option string)
        (_ : list (string * list (string * string))) =>
      (lift (Raise (ValueError "network unreachable")) : Py Fetched) in
  fetch_data_from_api_with network_down fetch_polygon fetch_finnhub
    "EURUSD" "1D" "2025-01-01" "2025-01-01" "alphavantage" None initial_world
  = (generated "2025-01-01" "2025-01-01" "1D",
     mkWorld [fetch_error_message (ValueError "network unreachable")] [] []).
Proof. vm_compute. reflexivity. Qed.


(** ** The exporter *)

Section ExporterFacts.

Variable float_repr : float -> string.
Variable fetch :
  string -> string -> string -> string -> string -> option string -> Py Fetched.

Variables instrument resolution start_date end_date data_source : string.
Variable api_key : option string.
Variable data_dir : string.

Let export : Py (option string) :=
  download_financial_data_with float_repr fetch
    instrument resolution start_date end_date data_source api_key data_dir.

Let fetched : Py Fetched :=
  fetch instrument resolution start_date end_date data_source api_key.

(** The run of the exporter when the fetch gave nothing. *)
Lemma export_nothing w data w' :
  fetched (world_after (makedirs data_dir) w) = (Return data, w') ->
  absent_or_empty data = true ->
  export w
  = (Return None,
     mkWorld (stdout w' ++ [no_data_warning instrument resolution])
             (dirs w') (files w')).
Proof.
  intros Hf Hd.
  unfold export, download_financial_data_with, bind, world_after in *.
  fold fetched. cbn [makedirs snd] in *. rewrite Hf.
  destruct data as [df|]; cbn [absent_or_empty] in Hd.
  - rewrite Hd. reflexivity.
  - reflexivity.
Qed.

(** The run of the exporter when the fetch gave lines. *)
Lemma export_frame w df w' :
  fetched (world_after (makedirs data_dir) w) = (Return (Some df), w') ->
  empty df = false ->
  export w
  = (Return (Some (csv_path data_dir instrument resolution)),
     mkWorld
       (stdout w' ++ [saved_message (csv_path data_dir instrument resolution)])
       (dirs w')
       ((csv_path data_dir instrument resolution,
         csv_text float_repr (format_timestamps df))
          :: remove_file (csv_path data_dir instrument resolution) (files w'))).
Proof.
  intros Hf Hd.
  unfold export, download_financial_data_with, bind, world_after in *.
  fold fetched. cbn [makedirs snd] in *. rewrite Hf, Hd. reflexivity.
Qed.

(** The run of the exporter when the fetch raised. *)
Lemma export_raises w e w' :
  fetched (world_after (makedirs data_dir) w) = (Raise e, w') ->
  export w = (Raise e, w').
Proof.
  intros Hf.
  unfold export, download_financial_data_with, bind, world_after in *.
  fold fetched. cbn [makedirs snd] in *. now rewrite Hf.
Qed.

End ExporterFacts.

(** C6. When the fetch gives [None] or a frame without lines, the exporter
    returns [None], prints the warning as its last line, and writes no
    file: the files are those the fetch left. *)
Theorem export_nothing_writes_nothing
  (float_repr : float -> string)
  (fetch : string -> string -> string -> string -> string -> option string
           -> Py Fetched)
  (instrument resolution start_date end_date data_source : string)
  (api_key : option string) (data_dir : string)
  (w w' : World) (data : Fetched) :
  fetch instrument resolution start_date end_date data_source api_key
    (world_after (makedirs data_dir) w) = (Return data, w') ->
  absent_or_empty data = true ->
  let export := download_financial_data_with float_repr fetch
                  instrument resolution start_date end_date data_source
                  api_key data_dir in
  outcome export w = Return None /\
  files (world_after export w) = files w' /\
  stdout (world_after export w)
  = (stdout w' ++ [no_data_warning instrument resolution])%list.
Proof.
  intros Hf Hd. cbv zeta. unfold outcome, world_after at 1 2.
  rewrite (export_nothing _ _ _ _ _ _ _ _ _ _ _ _ Hf Hd). auto.
Qed.

Lemma export_nothing_writes_nothing_witness :
  let export := download_financial_data (fun _ => "0")
                  "EURUSD" "1D" "2025-01-02" "2025-01-01" "alphavantage"
                  None "../data" in
  outcome export initial_world = Return None /\
  files (world_after export initial_world) = [] /\
  stdout (world_after export initial_world)
  = ["Alpha Vantage letöltés: EURUSD (1D)";
     "⚠️ Nem sikerült adatot letölteni: EURUSD (1D)"].
Proof.
  apply (export_nothing_writes_nothing (fun _ => "0") fetch_data_from_api
           "EURUSD" "1D" "2025-01-02" "2025-01-01" "alphavantage" None "../data"
           initial_world
           (mkWorld ["Alpha Vantage letöltés: EURUSD (1D)"] ["../data"] [])
           (Some (mkDataFrame [] [] [] [] []))).
  - vm_compute. reflexivity.
  - reflexivity.
Defined.

Lemma read_file_written path content fs :
  read_file path ((path, content) :: fs) = Some content.
Proof. cbn [read_file]. now rewrite String.eqb_refl. Qed.

(** The run of the exporter of the program on a frame with lines. *)
Lemma download_financial_data_frame
  float_repr instrument resolution start_date end_date data_source api_key
  data_dir w df :
  generated start_date end_date resolution = Return (Some df) ->
  empty df = false ->
  exists w',
    files w' = files w /\
    download_financial_data float_repr
      instrument resolution start_date end_date data_source api_key data_dir w
    = (Return (Some (csv_path data_dir instrument resolution)),
       mkWorld
         (stdout w' ++ [saved_message (csv_path data_dir instrument resolution)])
         (dirs w')
         ((csv_path data_dir instrument resolution,
           csv_text float_repr (format_timestamps df))
            :: remove_file (csv_path data_dir instrument resolution) (files w'))).
Proof.
  intros Hg Hd. eexists. split; [|apply export_frame; [|exact Hd]].
  2: { rewrite fetch_data_from_api_run, Hg. reflexivity. }
  reflexivity.
Qed.

Lemma new_year_frame :
  create_sample_data "2025-01-01" "2025-01-01" "1D"
  = Return (mkDataFrame [1735689600000] [100%float] [100.5%float]
                        [99.5%float] [100.2%float]).
Proof. vm_compute. reflexivity. Qed.

(** C8. For the start date 2025-01-01, the end date 2025-01-01 and the
    resolution 1D, whatever the instrument, the data source, the key, the
    directory and the world: the generator gives exactly one line, with
    open 100.0, high 100.5, low 99.5 and close 100.2; the exporter returns
    the path of the file; and the file holds the header and one line, whose
    timestamp is the string 2025-01-01 00:00 and whose numbers are these
    four. *)
Theorem new_year_scenario
  (float_repr : float -> string) (instrument data_source : string)
  (api_key : option string) (data_dir : string) (w : World) :
  let export := download_financial_data float_repr instrument "1D"
                  "2025-01-01" "2025-01-01" data_source api_key data_dir in
  let path := csv_path data_dir instrument "1D" in
  create_sample_data "2025-01-01" "2025-01-01" "1D"
  = Return (mkDataFrame [1735689600000] [100%float] [100.5%float]
                        [99.5%float] [100.2%float]) /\
  outcome export w = Return (Some path) /\
  read_file path (files (world_after export w))
  = Some [csv_header;
          csv_line float_repr
            (mkRow "2025-01-01 00:00" 100%float 100.5%float 99.5%float
                   100.2%float)].
Proof.
  cbv zeta. split; [exact new_year_frame|].
  destruct (download_financial_data_frame float_repr instrument "1D"
              "2025-01-01" "2025-01-01" data_source api_key data_dir w
              (mkDataFrame [1735689600000] [100%float] [100.5%float]
                           [99.5%float] [100.2%float]))
    as (w' & _ & Hrun).
  - unfold generated. now rewrite new_year_frame.
  - reflexivity.
  - unfold outcome, world_after. rewrite Hrun. cbn [fst snd files].
    split; [reflexivity|]. rewrite read_file_written.
    replace (format_timestamps
               (mkDataFrame [1735689600000] [100%float] [100.5%float]
                            [99.5%float] [100.2%float]))
      with (mkDataFrame ["2025-01-01 00:00"] [100%float] [100.5%float]
                        [99.5%float] [100.2%float])
      by (vm_compute; reflexivity).
    reflexivity.
Qed.

(** ** The batch driver *)

Lemma append_nonempty (a b : string) c r :
  b = String c r -> exists c' r', a ++ b = String c' r'.
Proof. intros ->. destruct a; cbn [append]; eauto. Qed.

Lemma path_join_nonempty (a b : string) c r :
  b = String c r -> exists c' r', path_join a b = String c' r'.
Proof.
  intros ->. unfold path_join.
  assert (H : exists c' r',
             match a with
             | EmptyString => String c r
             | String _ _ =>
                 if ends_with_slash a then a ++ String c r
                 else a ++ "/" ++ String c r
             end = String c' r').
  { destruct a as [|a0 a']; [eauto|].
    destruct (ends_with_slash (String a0 a')); cbn [append]; eauto. }
  destruct c as [[] [] [] [] [] [] [] []]; try exact H; eauto.
Qed.

Lemma csv_path_truthy data_dir instrument resolution :
  truthy (Some (csv_path data_dir instrument resolution)) = true.
Proof.
  unfold csv_path.
  destruct (append_nonempty instrument ("_" ++ resolution ++ ".csv") "_"
              (resolution ++ ".csv") eq_refl) as (c & r & E).
  destruct (path_join_nonempty data_dir _ _ _ E) as (c' & r' & ->).
  reflexivity.
Qed.

Lemma for_each_run {A} (body : A -> list string -> Py (list string))
  (g : A -> list string) (xs : list A) :
  (forall x acc w, In x xs -> exists w', body x acc w = (Return (acc ++ g x)%list, w')) ->
  forall acc w,
  exists w', for_each xs body acc w
             = (Return (acc ++ List.concat (map g xs))%list, w').
Proof.
  induction xs as [|x xs IH]; intros Hbody acc w.
  - exists w. cbn [for_each map List.concat]. now rewrite app_nil_r.
  - cbn [for_each map List.concat]. unfold bind.
    destruct (Hbody x acc w (or_introl eq_refl)) as (w1 & ->).
    destruct (IH (fun y a w0 Hy => Hbody y a w0 (or_intror Hy)) (acc ++ g x)%list w1)
      as (w2 & ->).
    exists w2. now rewrite app_assoc.
Qed.

Lemma concat_map_filter {A B} (p : A -> bool) (f : A -> B) (l : list A) :
  List.concat (map (fun x => if p x then [f x] else []) l) = map f (filter p l).
Proof.
  induction l as [|x l IH]; [reflexivity|].
  cbn [map List.concat filter]. destruct (p x); cbn [map app]; now rewrite IH.
Qed.

Lemma concat_concat_map {A B C} (f : A -> B -> list C) (l1 : list A) (l2 : list B) :
  List.concat (map (fun x => List.concat (map (f x) l2)) l1)
  = List.concat (map (fun p => f (fst p) (snd p)) (list_prod l1 l2)).
Proof.
  induction l1 as [|x l1 IH]; [reflexivity|].
  cbn [map List.concat list_prod]. rewrite map_app, concat_app, IH. f_equal.
  rewrite map_map. reflexivity.
Qed.

Lemma outcome_run {A} (m : Py A) w a :
  outcome m w = Return a -> exists w', m w = (Return a, w').
Proof. unfold outcome. destruct (m w) as [r w']; cbn [fst]. intros ->. eauto. Qed.

Section Batch.

Variable float_repr : float -> string.
Variable fetch :
  string -> string -> string -> string -> string -> option string -> Py Fetched.
Variable val : string -> string -> Fetched.
Variable data_source : string.
Variable api_key : option string.
Variable data_dir : string.

Hypothesis fetch_val :
  forall inst res w, In inst instruments -> In res resolutions ->
    outcome (fetch inst res "2025-01-01" "2025-09-30" data_source api_key) w
    = Return (val inst res).

(** One pair of the batch: the export returns the path when the fetch
    delivered, and [None] otherwise; it never raises. *)
Lemma export_of_pair inst res w :
  In inst instruments -> In res resolutions ->
  exists w',
    download_financial_data_with float_repr fetch inst res
      "2025-01-01" "2025-09-30" data_source api_key data_dir w
    = (Return (if delivered (val inst res)
               then Some (csv_path data_dir inst res) else None), w').
Proof.
  intros Hi Hr.
  destruct (outcome_run _ _ _ (fetch_val inst res (world_after (makedirs data_dir) w) Hi Hr))
    as (w1 & Hf).
  unfold delivered. destruct (absent_or_empty (val inst res)) eqn:E; cbn [negb].
  - eexists. now apply (export_nothing _ _ _ _ _ _ _ _ _ _ _ _ Hf).
  - destruct (val inst res) as [df|]; [|discriminate]. cbn [absent_or_empty] in E.
    eexists. now apply (export_frame _ _ _ _ _ _ _ _ _ _ _ _ Hf).
Qed.

Lemma batch_run w :
  exists w',
    download_all_assets_with float_repr fetch data_source api_key data_dir w
    = (Return (map (fun p => csv_path data_dir (fst p) (snd p))
                   (filter (fun p => delivered (val (fst p) (snd p))) batch_pairs)),
       w').
Proof.
  unfold download_all_assets_with.
  set (step := fun inst res => if delivered (val inst res)
                               then [csv_path data_dir inst res] else []).
  set (inner := fun inst : string => for_each resolutions _).
  assert (Hinner : forall inst acc w0, In inst instruments ->
            exists w1,
              inner inst acc w0
              = (Return (acc ++ List.concat (map (step inst) resolutions))%list, w1)).
  { intros inst acc w0 Hi. unfold inner. apply for_each_run. intros res a w1 Hr.
    unfold bind at 1. cbn [print].
    unfold bind at 1.
    destruct (export_of_pair inst res
                (mkWorld (stdout w1 ++ [newline ++ "📊 Letöltés: " ++ inst ++ " - " ++ res])
                         (dirs w1) (files w1)) Hi Hr) as (w2 & ->).
    unfold step. destruct (delivered (val inst res)).
    - rewrite csv_path_truthy. eexists. reflexivity.
    - eexists. unfold ret. now rewrite app_nil_r. }
  unfold bind at 1.
  destruct (for_each_run inner (fun inst => List.concat (map (step inst) resolutions))
              instruments (fun inst acc w0 Hi => Hinner inst acc w0 Hi) [] w)
    as (w1 & ->).
  cbn [app]. rewrite concat_concat_map. unfold step.
  rewrite (concat_map_filter (fun p => delivered (val (fst p) (snd p)))
             (fun p => csv_path data_dir (fst p) (snd p))).
  eexists. reflexivity.
Qed.

End Batch.

Lemma filter_all {A} (p : A -> bool) (l : list A) :
  (forall x, In x l -> p x = true) -> filter p l = l.
Proof.
  induction l as [|x l IH]; intros H; [reflexivity|].
  cbn [filter]. rewrite (H x (or_introl eq_refl)), IH; [reflexivity|].
  intros y Hy. apply H. now right.
Qed.

(** C9. Let the fetch of every pair of the batch return, with a value that
    does not depend on the world it runs in. Then the driver returns the
    paths of exactly the pairs whose fetch delivered lines, in the order of
    the loops: a pair whose export returns [None] is left out and the pairs
    after it are still exported. When every fetch delivers, these are the
    paths of all the pairs: 15, the 3 instruments times the 5
    resolutions. *)
Theorem batch_returns_the_written_paths
  (float_repr : float -> string)
  (fetch : string -> string -> string -> string -> string -> option string
           -> Py Fetched)
  (val : string -> string -> Fetched)
  (data_source : string) (api_key : option string) (data_dir : string)
  (w : World) :
  (forall inst res w0, In inst instruments -> In res resolutions ->
     outcome (fetch inst res "2025-01-01" "2025-09-30" data_source api_key) w0
     = Return (val inst res)) ->
  let path := fun p : string * string => csv_path data_dir (fst p) (snd p) in
  let batch := download_all_assets_with float_repr fetch data_source api_key
                 data_dir in
  outcome batch w
  = Return (map path (filter (fun p => delivered (val (fst p) (snd p)))
                             batch_pairs)) /\
  ((forall inst res, In inst instruments -> In res resolutions ->
      delivered (val inst res) = true) ->
   outcome batch w = Return (map path batch_pairs) /\
   List.length (map path batch_pairs) = 15%nat /\
   (15 = List.length instruments * List.length resolutions)%nat).
Proof.
  intros Hfetch. cbv zeta.
  destruct (batch_run float_repr fetch val data_source api_key data_dir Hfetch w)
    as (w' & Hrun).
  unfold outcome. rewrite Hrun. cbn [fst]. split; [reflexivity|].
  intros Hall. rewrite filter_all; [repeat split|].
  intros [inst res] Hp. apply in_prod_iff in Hp. destruct Hp as [Hi Hr].
  cbn [fst snd]. apply Hall; assumption.
Qed.

Lemma sample_frame_nonempty start end_ resolution :
  ordinal start <= ordinal end_ ->
  empty (sample_frame start end_ resolution) = false.
Proof.
  intros Hle.
  pose proof (sample_frame_len start end_ resolution) as Hlen.
  pose proof (step_seconds_pos resolution) as Hpos.
  assert (0 <= (Timestamp_of_datetime end_ - Timestamp_of_datetime start)
               / step_seconds resolution)
    by (apply Z.div_pos; [unfold Timestamp_of_datetime; lia | lia]).
  unfold empty, len in *.
  destruct (timestamp (sample_frame start end_ resolution)); [|reflexivity].
  cbn [List.length] in Hlen. lia.
Qed.

Lemma batch_returns_the_written_paths_witness :
  outcome (download_all_assets (fun _ => "0") "alphavantage" None "../data")
    initial_world
  = Return ["../data/EURUSD_1min.csv"; "../data/EURUSD_5min.csv";
            "../data/EURUSD_15min.csv"; "../data/EURUSD_30min.csv";
            "../data/EURUSD_1H.csv";
            "../data/XAUUSD_1min.csv"; "../data/XAUUSD_5min.csv";
            "../data/XAUUSD_15min.csv"; "../data/XAUUSD_30min.csv";
            "../data/XAUUSD_1H.csv";
            "../data/US30_1min.csv"; "../data/US30_5min.csv";
            "../data/US30_15min.csv"; "../data/US30_30min.csv";
            "../data/US30_1H.csv"].
Proof.
  pose (val := fun (_ res : string) =>
                 Some (sample_frame (mkdate 2025 1 1) (mkdate 2025 9 30) res)).
  destruct (batch_returns_the_written_paths (fun _ => "0") fetch_data_from_api
              val "alphavantage" None "../data" initial_world) as [_ H].
  - intros inst res w0 _ _. unfold outcome.
    rewrite fetch_data_from_api_run. cbn [fst].
    apply generated_parsed; reflexivity.
  - destruct H as [H _].
    + intros inst res _ _. unfold delivered, val. cbn [absent_or_empty].
      rewrite sample_frame_nonempty; [reflexivity|]. vm_compute. discriminate.
    + exact H.
Defined.

(** A batch in which one fetch returns [None]: that pair is left out, the
    fourteen others are exported. *)
Example batch_skips_a_missing_pair :
  let one_line := mkDataFrame [0] [100%float] [100.5%float] [99.5%float] [100.2%float] in
  let fetch := fun (inst res _ _ _ : string) (_ : option string) =>
    (ret (if String.eqb inst "XAUUSD" && String.eqb res "5min"
          then None else Some one_line) : Py Fetched) in
  outcome (download_all_assets_with (fun _ => "0") fetch "alphavantage" None "d")
    initial_world
  = Return ["d/EURUSD_1min.csv"; "d/EURUSD_5min.csv"; "d/EURUSD_15min.csv";
            "d/EURUSD_30min.csv"; "d/EURUSD_1H.csv";
            "d/XAUUSD_1min.csv"; "d/XAUUSD_15min.csv"; "d/XAUUSD_30min.csv";
            "d/XAUUSD_1H.csv";
            "d/US30_1min.csv"; "d/US30_5min.csv"; "d/US30_15min.csv";
            "d/US30_30min.csv"; "d/US30_1H.csv"].
Proof. vm_compute. reflexivity. Qed.

(** ** Reading back what the exporter wrote *)

Lemma civil_from_days_valid z :
  -719162 <= z <= 2932896 -> valid_date (civil_from_days z) = true.
Proof.
  intros Hz.
  pose proof (civil_from_days_year z Hz) as Hy.
  pose proof (civil_from_days_month z) as Hm.
  pose proof (civil_from_days_day z) as Hd.
  unfold valid_date. bool_to_Z. repeat split; try lia.
  clear Hy Hm Hd. unfold civil_from_days, days_in_month. cbn [year month day].
  set (z' := z + 719468).
  set (era := z' / 146097).
  set (doe := z' - era * 146097).
  set (yoe := (doe - doe / 1460 + doe / 36524 - doe / 146096) / 365).
  set (doy := doe - (365 * yoe + yoe / 4 - yoe / 100)).
  set (mp := (5 * doy + 2) / 153).
  destruct (is_leap_cases (if (if mp <? 10 then mp + 3 else mp - 9) <=? 2
                           then yoe + era * 400 + 1 else yoe + era * 400))
    as [[-> L] | [-> L]];
    subst z' era doe yoe doy mp; split_ifs; bool_to_Z; euclid.
Qed.

Lemma digit_char_code n : N_of_ascii (digit_char n) = (Z.to_N (n mod 10) + 48)%N.
Proof.
  unfold digit_char. apply N_ascii_embedding.
  pose proof (Z.mod_pos_bound n 10 ltac:(lia)). lia.
Qed.

Lemma digit_val_digit_char n : digit_val (digit_char n) = n mod 10.
Proof.
  unfold digit_val. rewrite digit_char_code.
  pose proof (Z.mod_pos_bound n 10 ltac:(lia)). lia.
Qed.

Lemma is_digit_digit_char n : is_digit (digit_char n) = true.
Proof.
  unfold is_digit, char_in. rewrite digit_char_code.
  pose proof (Z.mod_pos_bound n 10 ltac:(lia)).
  apply andb_true_iff. split; apply N.leb_le; cbn; lia.
Qed.

Lemma digit_char_not (c : ascii) n :
  (N_of_ascii c < 48)%N \/ (57 < N_of_ascii c)%N ->
  Ascii.eqb (digit_char n) c = false.
Proof.
  intros Hc. apply Ascii.eqb_neq. intros E.
  pose proof (digit_char_code n) as H. rewrite E in H.
  pose proof (Z.mod_pos_bound n 10 ltac:(lia)). lia.
Qed.

Lemma two_digits_pad n :
  0 <= n < 100 -> two_digits (digit_char (n / 10)) (digit_char n) = Some n.
Proof.
  intros Hn. unfold two_digits.
  rewrite !is_digit_digit_char, !digit_val_digit_char. cbn [andb].
  f_equal. euclid.
Qed.

(** The cell of an instant names the minute the instant falls in. *)
Lemma parse_timestamp_strftime ms :
  four_digit_year ms ->
  parse_timestamp (strftime ms) = Some (60000 * (ms / 60000)).
Proof.
  unfold four_digit_year. intros Hms.
  assert (Hdays : -719162 <= ms / 60000 / 1440 <= 2932896) by euclid.
  pose proof (civil_from_days_valid _ Hdays) as Hvalid.
  pose proof (civil_days_roundtrip (ms / 60000 / 1440)) as Hround.
  pose proof (civil_from_days_year _ Hdays) as Hy.
  pose proof (civil_from_days_month (ms / 60000 / 1440)) as Hm.
  pose proof (civil_from_days_day (ms / 60000 / 1440)) as Hd.
  unfold strftime.
  destruct (civil_from_days (ms / 60000 / 1440)) as [y m d] eqn:Ecivil.
  cbn [year month day] in *.
  pose proof (Z.mod_pos_bound (ms / 60000) 1440 ltac:(lia)) as Hmin.
  set (mins := (ms / 60000) mod 1440) in *.
  unfold pad4, pad2. cbn [append parse_timestamp].
  cbn [Ascii.eqb Bool.eqb andb].
  replace (digit_char (y / 1000)) with (digit_char (y / 100 / 10))
    by (f_equal; euclid).
  replace (digit_char (y / 10)) with (digit_char (y mod 100 / 10)).
  2: { unfold digit_char. do 3 f_equal. euclid. }
  replace (digit_char y) with (digit_char (y mod 100)).
  2: { unfold digit_char. do 3 f_equal. euclid. }
  rewrite (two_digits_pad (y / 100)) by euclid.
  rewrite (two_digits_pad (y mod 100)) by euclid.
  rewrite (two_digits_pad m) by lia.
  rewrite (two_digits_pad d) by lia.
  rewrite (two_digits_pad (mins / 60)) by euclid.
  rewrite (two_digits_pad (mins mod 60)) by euclid.
  replace (100 * (y / 100) + y mod 100) with y by euclid.
  rewrite Hvalid. unfold ordinal in *. cbn [year month day] in *. rewrite Hround.
  replace (mins / 60 <? 24) with true by (symmetry; apply Z.ltb_lt; euclid).
  replace (mins mod 60 <? 60) with true by (symmetry; apply Z.ltb_lt; euclid).
  cbn [andb]. f_equal. subst mins. euclid.
Qed.

Lemma split_on_no_sep sep s : no_char sep s = true -> split_on sep s = [s].
Proof.
  induction s as [|c r IH]; [reflexivity|].
  cbn [no_char split_on]. intros H. apply andb_true_iff in H. destruct H as [Hc Hr].
  apply negb_true_iff in Hc. rewrite Hc, (IH Hr). reflexivity.
Qed.

Lemma split_on_app sep a b :
  no_char sep a = true ->
  split_on sep (a ++ String sep b) = a :: split_on sep b.
Proof.
  induction a as [|c r IH]; cbn [no_char append split_on].
  - intros _. now rewrite Ascii.eqb_refl.
  - intros H. apply andb_true_iff in H. destruct H as [Hc Hr].
    apply negb_true_iff in Hc. rewrite Hc, (IH Hr). reflexivity.
Qed.

Lemma comma_append (s : string) : "," ++ s = String "," s.
Proof. reflexivity. Qed.

Lemma strftime_no_comma ms : no_char "," (strftime ms) = true.
Proof.
  unfold strftime, pad4, pad2. cbn [append no_char].
  rewrite !digit_char_not by (left; vm_compute; reflexivity).
  reflexivity.
Qed.

Lemma zip_rows_map_timestamp {T U} (f : T -> U) ts os hs ls cs :
  zip_rows (map f ts) os hs ls cs
  = map (fun r => mkRow (f (r_timestamp r)) (r_open r) (r_high r) (r_low r) (r_close r))
        (zip_rows ts os hs ls cs).
Proof.
  revert os hs ls cs. induction ts as [|t ts IH]; intros os hs ls cs; [reflexivity|].
  destruct os as [|o os], hs as [|h hs], ls as [|l ls], cs as [|c cs];
    try reflexivity.
  cbn [map zip_rows r_timestamp r_open r_high r_low r_close]. now rewrite IH.
Qed.

Lemma zip_rows_timestamps {T} (ts : list T) os hs ls cs :
  List.length os = List.length ts -> List.length hs = List.length ts ->
  List.length ls = List.length ts -> List.length cs = List.length ts ->
  map r_timestamp (zip_rows ts os hs ls cs) = ts.
Proof.
  revert os hs ls cs. induction ts as [|t ts IH]; intros os hs ls cs; [reflexivity|].
  destruct os as [|o os], hs as [|h hs], ls as [|l ls], cs as [|c cs];
    cbn [List.length]; try discriminate.
  intros H1 H2 H3 H4. cbn [zip_rows map r_timestamp].
  rewrite IH; congruence.
Qed.

Lemma rows_timestamps {T} (df : DataFrame T) :
  well_formed df -> map r_timestamp (rows df) = timestamp df.
Proof.
  unfold well_formed, len, rows. intros (H1 & H2 & H3 & H4).
  now apply zip_rows_timestamps.
Qed.

Lemma rows_length {T} (df : DataFrame T) :
  well_formed df -> List.length (rows df) = len df.
Proof.
  intros H. unfold len. rewrite <- (rows_timestamps df H).
  now rewrite length_map.
Qed.

Section RoundTrip.

Variable float_repr : float -> string.
Variable float_of_string : string -> option float.

Hypothesis float_read_back : forall x, float_of_string (float_repr x) = Some x.
Hypothesis float_no_comma : forall x, no_char "," (float_repr x) = true.

Lemma parse_line_csv_line (r : Row Z) :
  four_digit_year (r_timestamp r) ->
  parse_line float_of_string
    (csv_line float_repr
       (mkRow (strftime (r_timestamp r)) (r_open r) (r_high r) (r_low r) (r_close r)))
  = Some (read_back r).
Proof.
  intros Ht. unfold parse_line, csv_line. cbn [r_timestamp r_open r_high r_low r_close].
  rewrite !comma_append.
  rewrite !split_on_app by auto using strftime_no_comma.
  rewrite split_on_no_sep by auto.
  rewrite (parse_timestamp_strftime _ Ht), !float_read_back. reflexivity.
Qed.

Lemma parse_lines_csv_lines (rs : list (Row Z)) :
  (forall r, In r rs -> four_digit_year (r_timestamp r)) ->
  parse_lines float_of_string
    (map (csv_line float_repr)
       (map (fun r => mkRow (strftime (r_timestamp r)) (r_open r) (r_high r)
                            (r_low r) (r_close r)) rs))
  = Some (map read_back rs).
Proof.
  induction rs as [|r rs IH]; intros H; [reflexivity|].
  cbn [map parse_lines].
  rewrite parse_line_csv_line by (apply H; now left).
  rewrite IH by (intros r' Hr'; apply H; now right). reflexivity.
Qed.

Lemma read_csv_csv_text (df : DataFrame Z) :
  well_formed df ->
  (forall t, In t (timestamp df) -> four_digit_year t) ->
  read_csv float_of_string (csv_text float_repr (format_timestamps df))
  = Some (map read_back (rows df)).
Proof.
  intros Hwf Ht. unfold read_csv, csv_text.
  change (String.eqb csv_header "timestamp,open,high,low,close") with true.
  cbv iota. unfold rows at 1, format_timestamps. cbn [timestamp open high low close].
  rewrite zip_rows_map_timestamp. fold (rows df).
  apply parse_lines_csv_lines.
  intros r Hr. apply Ht. rewrite <- (rows_timestamps df Hwf).
  now apply in_map.
Qed.

End RoundTrip.


(** The exact format reads back what it writes. *)

Lemma decode_code (x : spec_float) :
  valid_binary x = true -> ExactFormat.decode (ExactFormat.code x) = x.
Proof.
  destruct x as [[] | [] | | s m e]; try reflexivity.
  unfold SpecFloat.valid_binary, bounded, canonical_mantissa, fexp,
    SpecFloat.emin, prec, emax.
  rewrite andb_true_iff, Z.eqb_eq, Z.leb_le. intros [Hc He].
  assert (Hlo : -1074 <= e) by lia.
  unfold ExactFormat.code, ExactFormat.decode.
  set (c := Z.pos m * 4096 + (e + 2048)).
  assert (Hc4 : 4096 <= c) by (subst c; lia).
  assert (Hdiv : c / 4096 = Z.pos m) by (subst c; euclid).
  assert (Hmod : c mod 4096 = e + 2048) by (subst c; euclid).
  destruct s.
  - replace (- c =? 0) with false by (symmetry; apply Z.eqb_neq; lia).
    replace (- c =? 1) with false by (symmetry; apply Z.eqb_neq; lia).
    replace (- c =? 2) with false by (symmetry; apply Z.eqb_neq; lia).
    replace (- c =? 3) with false by (symmetry; apply Z.eqb_neq; lia).
    replace (- c =? 4) with false by (symmetry; apply Z.eqb_neq; lia).
    replace (- c <? 0) with true by (symmetry; apply Z.ltb_lt; lia).
    replace (Z.abs (- c)) with c by lia.
    rewrite Hdiv, Hmod. f_equal. lia.
  - replace (c =? 0) with false by (symmetry; apply Z.eqb_neq; lia).
    replace (c =? 1) with false by (symmetry; apply Z.eqb_neq; lia).
    replace (c =? 2) with false by (symmetry; apply Z.eqb_neq; lia).
    replace (c =? 3) with false by (symmetry; apply Z.eqb_neq; lia).
    replace (c =? 4) with false by (symmetry; apply Z.eqb_neq; lia).
    replace (c <? 0) with false by (symmetry; apply Z.ltb_ge; lia).
    replace (Z.abs c) with c by lia.
    rewrite Hdiv, Hmod. f_equal. lia.
Qed.

Lemma exact_format_reads_back (x : float) :
  ExactFormat.float_of_string (ExactFormat.float_repr x) = Some x.
Proof.
  unfold ExactFormat.float_of_string, ExactFormat.float_repr.
  rewrite NilEmpty.isi. cbn [option_map].
  rewrite DecimalZ.of_to, decode_code by apply Prim2SF_valid.
  now rewrite SF2Prim_Prim2SF.
Qed.

Lemma string_of_uint_no_comma (d : Decimal.uint) :
  no_char "," (NilEmpty.string_of_uint d) = true.
Proof. induction d; cbn [NilEmpty.string_of_uint no_char]; auto. Qed.

Lemma exact_format_no_comma (x : float) :
  no_char "," (ExactFormat.float_repr x) = true.
Proof.
  unfold ExactFormat.float_repr.
  destruct (Z.to_int _); cbn [NilEmpty.string_of_int];
    [|change (no_char "," (String "-" ?s)) with (no_char "," s)];
    apply string_of_uint_no_comma.
Qed.


(** Two frames that differ in the seconds only are written as the same
    file: the minute is all that can be read back. *)
Example seconds_are_not_written (float_repr : float -> string) :
  csv_text float_repr
    (format_timestamps
       (mkDataFrame [1735689600000] [100%float] [100.5%float] [99.5%float] [100.2%float]))
  = csv_text float_repr
      (format_timestamps
         (mkDataFrame [1735689659999] [100%float] [100.5%float] [99.5%float] [100.2%float])).
Proof. reflexivity. Qed.

(** ** Rounding in binary64 *)

Lemma digits2_pos_log2 (m : positive) :
  Z.pos (digits2_pos m) = Z.log2 (Z.pos m) + 1.
Proof.
  assert (H : forall p, digits2_pos p = Pos.size p)
    by (induction p; cbn [digits2_pos Pos.size]; congruence).
  rewrite H. destruct m; cbn [Z.log2 Pos.size]; lia.
Qed.

Lemma digits_bounds (m : positive) :
  2 ^ (Z.pos (digits2_pos m) - 1) <= Z.pos m < 2 ^ Z.pos (digits2_pos m).
Proof.
  rewrite digits2_pos_log2.
  pose proof (Z.log2_spec (Z.pos m) ltac:(lia)) as H.
  replace (Z.log2 (Z.pos m) + 1 - 1) with (Z.log2 (Z.pos m)) by ring.
  exact H.
Qed.

Lemma iter_pos_nat {A} (f : A -> A) (p : positive) (x : A) :
  iter_pos f p x = Nat.iter (Pos.to_nat p) f x.
Proof.
  revert x. induction p as [p IH | p IH |]; intros x; cbn [iter_pos].
  - rewrite !IH, Pos2Nat.inj_xI.
    replace (S (2 * Pos.to_nat p)) with (Pos.to_nat p + Pos.to_nat p + 1)%nat by lia.
    rewrite !Nat.iter_add. reflexivity.
  - rewrite !IH, Pos2Nat.inj_xO.
    replace (2 * Pos.to_nat p)%nat with (Pos.to_nat p + Pos.to_nat p)%nat by lia.
    rewrite Nat.iter_add. reflexivity.
  - reflexivity.
Qed.

Lemma shr_1_nonneg (m : Z) (r s : bool) :
  0 <= m ->
  shr_1 (Build_shr_record m r s) = Build_shr_record (m / 2) (Z.odd m) (r || s).
Proof.
  intros Hm. destruct m as [|p|p]; [reflexivity| |lia].
  destruct p as [p|p|]; cbn [shr_1].
  - f_equal. rewrite Pos2Z.inj_xI. euclid.
  - f_equal. rewrite Pos2Z.inj_xO. euclid.
  - reflexivity.
Qed.

Lemma pow2_pos (n : Z) : 0 <= n -> 0 < 2 ^ n.
Proof. intros. apply Z.pow_pos_nonneg; lia. Qed.

Lemma pow2_succ (n : Z) : 0 <= n -> 2 ^ (n + 1) = 2 * 2 ^ n.
Proof. intros. rewrite Z.pow_add_r by lia. lia. Qed.

(** One more binary digit of the remainder. *)
Lemma mod_pow2_succ (m n : Z) :
  0 <= n ->
  m mod 2 ^ (n + 1) = m mod 2 ^ n + (if Z.odd (m / 2 ^ n) then 2 ^ n else 0).
Proof.
  intros Hn. rewrite pow2_succ by lia.
  pose proof (pow2_pos n Hn) as Hp.
  rewrite Z.mul_comm, Z.rem_mul_r by lia.
  rewrite Zmod_odd. destruct (Z.odd (m / 2 ^ n)); lia.
Qed.

Lemma shifted_step (m n : Z) :
  0 <= m -> 1 <= n -> shr_1 (shifted m n) = shifted m (n + 1).
Proof.
  intros Hm Hn. unfold shifted.
  pose proof (pow2_pos n ltac:(lia)) as Hp.
  rewrite shr_1_nonneg by (apply Z.div_pos; lia).
  replace (n + 1 - 1) with n by ring.
  f_equal.
  - rewrite pow2_succ by lia. rewrite Z.div_div by lia. f_equal. lia.
  - replace n with (n - 1 + 1) at 3 by ring.
    rewrite mod_pow2_succ by lia.
    pose proof (Z.mod_pos_bound m (2 ^ (n - 1)) (pow2_pos (n - 1) ltac:(lia))).
    pose proof (pow2_pos (n - 1) ltac:(lia)).
    destruct (Z.odd (m / 2 ^ (n - 1))); cbn [orb].
    + symmetry. apply negb_true_iff, Z.eqb_neq. lia.
    + f_equal. f_equal. lia.
Qed.

Lemma shifted_iter (m : Z) (j : nat) :
  0 <= m ->
  Nat.iter (S j) shr_1 (Build_shr_record m false false)
  = shifted m (Z.of_nat (S j)).
Proof.
  intros Hm. induction j as [|j IH].
  - cbn [Nat.iter nat_rect]. rewrite shr_1_nonneg by lia. unfold shifted.
    change (Z.of_nat 1) with 1. cbn [Z.sub Z.opp Z.add Z.pos_sub].
    rewrite Z.pow_0_r, Z.pow_1_r, Z.div_1_r, Z.mod_1_r. reflexivity.
  - change (Nat.iter (S (S j)) shr_1 ?x) with (shr_1 (Nat.iter (S j) shr_1 x)).
    rewrite IH, shifted_step by lia. f_equal. lia.
Qed.

Lemma shr_pos (m e : Z) (p : positive) :
  0 <= m ->
  shr (Build_shr_record m false false) e (Z.pos p)
  = (shifted m (Z.pos p), e + Z.pos p).
Proof.
  intros Hm. unfold shr. rewrite iter_pos_nat.
  destruct (Pos2Nat.is_succ p) as [j Hj]. rewrite Hj, shifted_iter by exact Hm.
  rewrite <- Hj, positive_nat_Z. reflexivity.
Qed.

(** Rounding what [shr] leaves is rounding the quotient to nearest even. *)
Lemma round_shifted (m n : Z) :
  0 <= m -> 1 <= n ->
  round_nearest_even (shr_m (shifted m n)) (loc_of_shr_record (shifted m n))
  = rne m n.
Proof.
  intros Hm Hn. unfold shifted, rne. cbn [shr_m].
  replace n with (n - 1 + 1) by ring.
  replace (n - 1 + 1 - 1) with (n - 1) by ring.
  assert (Hn' : 0 <= n - 1) by lia. revert Hn'. generalize (n - 1). clear n Hn.
  intros n Hn.
  pose proof (pow2_pos n Hn) as Hp.
  rewrite mod_pow2_succ, pow2_succ by lia.
  pose proof (Z.mod_pos_bound m (2 ^ n) Hp) as Hr.
  replace (m / (2 * 2 ^ n)) with (m / 2 ^ n / 2)
    by (rewrite Z.div_div by lia; f_equal; lia).
  set (q := m / 2 ^ n) in *. set (t := m mod 2 ^ n) in *.
  set (P := 2 ^ n) in *.
  destruct (Z.odd q) eqn:Eq; destruct (t =? 0) eqn:Et;
    cbn [negb loc_of_shr_record round_nearest_even];
    rewrite ?Z.eqb_eq, ?Z.eqb_neq in Et.
  - replace (2 * P <? 2 * (t + P)) with false by (symmetry; apply Z.ltb_ge; lia).
    replace (2 * (t + P) =? 2 * P) with true by (symmetry; apply Z.eqb_eq; lia).
    cbn [orb andb]. rewrite <- Z.negb_odd. destruct (Z.odd (q / 2)); reflexivity.
  - replace (2 * P <? 2 * (t + P)) with true by (symmetry; apply Z.ltb_lt; lia).
    reflexivity.
  - replace (2 * P <? 2 * (t + 0)) with false by (symmetry; apply Z.ltb_ge; lia).
    replace (2 * (t + 0) =? 2 * P) with false by (symmetry; apply Z.eqb_neq; lia).
    reflexivity.
  - replace (2 * P <? 2 * (t + 0)) with false by (symmetry; apply Z.ltb_ge; lia).
    replace (2 * (t + 0) =? 2 * P) with false by (symmetry; apply Z.eqb_neq; lia).
    reflexivity.
Qed.

Lemma fexp64 (d : Z) : fexp prec emax d = Z.max (d - 53) (-1074).
Proof. reflexivity. Qed.

Lemma rne_0 (m : Z) : rne m 0 = m.
Proof.
  unfold rne. rewrite Z.pow_0_r, Z.div_1_r, Z.mod_1_r. reflexivity.
Qed.

Lemma rne_bounds (m n : Z) :
  0 <= n -> m / 2 ^ n <= rne m n <= m / 2 ^ n + 1.
Proof. intros Hn. unfold rne. destruct (_ || _); lia. Qed.

Lemma stage1 (m e n : Z) :
  0 <= m -> 0 <= n ->
  round_nearest_even (shr_m (fst (shr (Build_shr_record m false false) e n)))
    (loc_of_shr_record (fst (shr (Build_shr_record m false false) e n)))
  = rne m n /\
  snd (shr (Build_shr_record m false false) e n) = e + n.
Proof.
  intros Hm Hn. destruct n as [|p|p]; [| |lia].
  - cbn [shr fst snd shr_m loc_of_shr_record round_nearest_even].
    rewrite rne_0. split; [reflexivity | lia].
  - rewrite shr_pos by exact Hm. cbn [fst snd].
    rewrite round_shifted by lia. split; reflexivity.
Qed.

Lemma pow2_le (a b : Z) : 0 <= a <= b -> 2 ^ a <= 2 ^ b.
Proof. intros. apply Z.pow_le_mono_r; lia. Qed.

Lemma pow2_lt (a b : Z) : 0 <= a < b -> 2 ^ a < 2 ^ b.
Proof. intros. apply Z.pow_lt_mono_r; lia. Qed.

(** The quotient of a number of [n + g] digits by [2^n] has [g] digits. *)
Lemma div_pow2_bounds (m n g : Z) :
  0 <= n -> 1 <= g -> 2 ^ (n + g - 1) <= m < 2 ^ (n + g) ->
  2 ^ (g - 1) <= m / 2 ^ n < 2 ^ g.
Proof.
  intros Hn Hg [Hlo Hhi].
  pose proof (pow2_pos n Hn) as Hp.
  split.
  - apply Z.div_le_lower_bound; [lia|].
    replace (n + g - 1) with (n + (g - 1)) in Hlo by ring.
    rewrite Z.pow_add_r in Hlo by lia. lia.
  - apply Z.div_lt_upper_bound; [lia|].
    rewrite Z.pow_add_r in Hhi by lia. lia.
Qed.

(** The second normalisation of [binary_round_aux]: the rounded mantissa
    has at most 53 digits, or is [2^53]. *)
Lemma stage2 (m1 fe : Z) :
  -1074 <= fe -> 0 <= m1 <= 2 ^ 53 ->
  (fe = -1074 \/ 2 ^ 52 <= m1) ->
  let r :=
    let '(mrs, e) := shr_fexp prec emax m1 fe loc_Exact in
    match shr_m mrs with
    | Z0 => S754_zero false
    | Z.pos m => if e <=? emax - prec then S754_finite false m e
                 else S754_infinity false
    | Z.neg _ => S754_nan
    end in
  not_negative r = true /\ ord r = Z.min (m1 * 2 ^ (fe + 1074)) (2 ^ 2098).
Proof.
  intros Hfe [Hm0 Hm1] Hnormal. cbv zeta.
  unfold shr_fexp. cbn [shr_record_of_loc]. rewrite fexp64.
  change (emax - prec) with 971.
  pose proof (pow2_pos (fe + 1074) ltac:(lia)) as Hpow.
  destruct m1 as [|p1|p1]; [| |lia].
  - cbn [Zdigits2]. replace (Z.max (0 + fe - 53) (-1074) - fe) with (- (fe - Z.max (fe - 53) (-1074))) by lia.
    destruct (fe - Z.max (fe - 53) (-1074)) eqn:E; try lia;
      cbn [Z.opp shr shr_m not_negative ord]; split; try reflexivity;
      rewrite Z.mul_0_l; symmetry; apply Z.min_l; apply Z.pow_nonneg; lia.
  - cbn [Zdigits2].
    pose proof (digits_bounds p1) as [Hdlo Hdhi].
    set (g := Z.pos (digits2_pos p1)) in *.
    assert (Hg1 : 1 <= g) by (subst g; lia).
    destruct (Z.eq_dec (Z.pos p1) (2 ^ 53)) as [E53 | N53].
    + (* the carry: one more shift *)
      assert (Hg : g = 54).
      { assert (g - 1 <= 53).
        { destruct (Z_le_gt_dec (g - 1) 53); [assumption|].
          pose proof (pow2_lt 53 (g - 1) ltac:(lia)). lia. }
        assert (53 < g).
        { destruct (Z_lt_le_dec 53 g); [assumption|].
          pose proof (pow2_le g 53 ltac:(lia)). lia. }
        lia. }
      rewrite Hg. replace (Z.max (54 + fe - 53) (-1074) - fe) with 1 by lia.
      rewrite shr_pos by lia. unfold shifted. cbn [shr_m].
      rewrite E53. change (2 ^ 53 / 2 ^ 1) with (Z.pos (2 ^ 52)).
      destruct (fe + 1 <=? 971) eqn:Ele; cbn [not_negative ord];
        (split; [reflexivity|]).
      * apply Z.leb_le in Ele.
        replace (fe + 1 + 1074) with (fe + 1074 + 1) by ring.
        rewrite pow2_succ by lia.
        pose proof (pow2_le (fe + 1074) 2044 ltac:(lia)).
        change (Z.pos (2 ^ 52)) with (2 ^ 52).
        change (2 ^ 2098) with (2 * 2 ^ 52 * (2 * 2 ^ 2044)).
        change (2 ^ 53) with (2 * 2 ^ 52).
        rewrite Z.min_l; nia.
      * apply Z.leb_gt in Ele.
        pose proof (pow2_le 2045 (fe + 1074) ltac:(lia)).
        change (2 ^ 2098) with (2 ^ 53 * 2 ^ 2045).
        rewrite Z.min_r; nia.
    + assert (Hlt : Z.pos p1 < 2 ^ 53) by lia.
      assert (Hg : g <= 53).
      { destruct (Z_le_gt_dec g 53); [assumption|].
        pose proof (pow2_le 53 (g - 1) ltac:(lia)). lia. }
      replace (Z.max (g + fe - 53) (-1074) - fe)
        with (- (fe - Z.max (g + fe - 53) (-1074))) by lia.
      assert (Hshift : shr (Build_shr_record (Z.pos p1) false false) fe
                         (- (fe - Z.max (g + fe - 53) (-1074)))
                       = (Build_shr_record (Z.pos p1) false false, fe)).
      { destruct (fe - Z.max (g + fe - 53) (-1074)) eqn:E; try lia; reflexivity. }
      rewrite Hshift. cbn [shr_m].
      destruct (fe <=? 971) eqn:Ele; cbn [not_negative ord];
        (split; [reflexivity|]).
      * apply Z.leb_le in Ele.
        pose proof (pow2_le (fe + 1074) 2045 ltac:(lia)).
        change (2 ^ 2098) with (2 ^ 53 * 2 ^ 2045).
        rewrite Z.min_l; nia.
      * apply Z.leb_gt in Ele.
        destruct Hnormal as [? | Hbig]; [lia|].
        pose proof (pow2_le 2046 (fe + 1074) ltac:(lia)).
        change (2 ^ 2098) with (2 ^ 52 * 2 ^ 2046).
        rewrite Z.min_r; nia.
Qed.

Lemma pos_iter_xO (m p : positive) :
  Z.pos (Pos.iter xO m p) = Z.pos m * 2 ^ Z.pos p.
Proof.
  rewrite <- Z.shiftl_mul_pow2 by lia. cbn [Z.shiftl].
  apply (Pos.iter_swap_gen _ _ Z.pos xO (Z.mul 2)). reflexivity.
Qed.

Lemma rne_scale (m n s : Z) :
  0 <= n -> 0 <= s -> rne (m * 2 ^ s) (n + s) = rne m n.
Proof.
  intros Hn Hs. unfold rne.
  pose proof (pow2_pos n Hn) as Hpn. pose proof (pow2_pos s Hs) as Hps.
  rewrite Z.pow_add_r by lia.
  rewrite Z.div_mul_cancel_r by lia.
  rewrite Z.mul_mod_distr_r by lia.
  set (q := m / 2 ^ n). set (r := m mod 2 ^ n).
  replace (2 ^ n * 2 ^ s <? 2 * (r * 2 ^ s)) with (2 ^ n <? 2 * r).
  2: { destruct (Z.ltb_spec (2 ^ n) (2 * r));
       symmetry; [apply Z.ltb_lt | apply Z.ltb_ge]; nia. }
  replace (2 * (r * 2 ^ s) =? 2 ^ n * 2 ^ s) with (2 * r =? 2 ^ n).
  2: { destruct (Z.eqb_spec (2 * r) (2 ^ n));
       symmetry; [apply Z.eqb_eq | apply Z.eqb_neq]; nia. }
  reflexivity.
Qed.

(** What [binary_round] returns for a mantissa and an exponent: the value,
    rounded. *)
Lemma binary_round_value (mx : positive) (ex : Z) :
  -1074 <= ex ->
  not_negative (binary_round prec emax false mx ex) = true /\
  ord (binary_round prec emax false mx ex)
  = rnd_inf (Z.pos mx * 2 ^ (ex + 1074)).
Proof.
  intros Hex. unfold binary_round.
  rewrite fexp64.
  set (d := Z.pos (digits2_pos mx) + ex).
  set (fe := Z.max (d - 53) (-1074)).
  pose proof (digits_bounds mx) as Hdx.
  (* the aligned mantissa *)
  assert (Halign : exists mz ez,
             shl_align mx ex fe = (mz, ez) /\ ez = Z.min ex fe /\
             Z.pos mz = Z.pos mx * 2 ^ (ex - ez) /\
             Z.pos (digits2_pos mz) + ez = d).
  { unfold shl_align. destruct (fe - ex) as [|p|p] eqn:E.
    - exists mx, ex. repeat split; try lia.
      replace (ex - ex) with 0 by ring. lia.
    - exists mx, ex. repeat split; try lia.
      replace (ex - ex) with 0 by ring. lia.
    - exists (Pos.iter xO mx p), fe.
      assert (Hp : Z.pos p = ex - fe) by lia.
      rewrite pos_iter_xO, Hp. repeat split; try lia.
      unfold d. rewrite !digits2_pos_log2, pos_iter_xO, Hp.
      rewrite Z.log2_mul_pow2 by lia. lia. }
  destruct Halign as (mz & ez & -> & Hez & Hmz & Hdz).
  assert (Hez' : -1074 <= ez) by (subst fe; lia).
  set (n := fe - ez).
  assert (Hn : 0 <= n) by (subst n; lia).
  set (g := d - fe).
  assert (Hg : 1 <= g <= 53).
  { pose proof (digits_bounds mz). subst g fe.
    assert (1 <= Z.pos (digits2_pos mz)) by lia. lia. }
  (* first stage *)
  assert (Haux :
    binary_round_aux prec emax false (Z.pos mz) ez loc_Exact
    = let '(mrs, e) := shr_fexp prec emax (rne (Z.pos mz) n) fe loc_Exact in
      match shr_m mrs with
      | Z0 => S754_zero false
      | Z.pos m => if e <=? emax - prec then S754_finite false m e
                   else S754_infinity false
      | Z.neg _ => S754_nan
      end).
  { unfold binary_round_aux.
    unfold shr_fexp at 1. cbn [shr_record_of_loc Zdigits2].
    rewrite fexp64, Hdz. fold fe. fold n.
    pose proof (stage1 (Z.pos mz) ez n ltac:(lia) Hn) as [Hround He'].
    destruct (shr (Build_shr_record (Z.pos mz) false false) ez n) as [mrs' e'].
    cbn [fst snd] in Hround, He'. rewrite Hround.
    replace e' with fe by (subst n; lia). reflexivity. }
  rewrite Haux. clear Haux.
  (* the rounded mantissa *)
  pose proof (digits_bounds mz) as Hdmz.
  assert (Hq : 2 ^ (g - 1) <= Z.pos mz / 2 ^ n < 2 ^ g).
  { apply div_pow2_bounds; try lia.
    replace (n + g) with (Z.pos (digits2_pos mz)) by (subst n g; lia).
    replace (Z.pos (digits2_pos mz) - 1) with (Z.pos (digits2_pos mz) - 1) by ring.
    exact Hdmz. }
  pose proof (rne_bounds (Z.pos mz) n Hn) as Hrne.
  pose proof (pow2_le g 53 ltac:(lia)) as Hg53.
  pose proof (pow2_pos (g - 1) ltac:(lia)) as Hgpos.
  destruct (stage2 (rne (Z.pos mz) n) fe) as [Hshape Hord].
  { subst fe; lia. }
  { lia. }
  { destruct (Z.eq_dec fe (-1074)) as [|Hne]; [now left | right].
    assert (g = 53) by (subst g fe; lia).
    subst g. replace (d - fe - 1) with 52 in * by lia. lia. }
  cbv zeta in Hshape, Hord.
  split; [exact Hshape|]. rewrite Hord.
  (* the same value, in units of 2^-1074 *)
  unfold rnd_inf, rnd. f_equal.
  assert (HV : Z.pos mx * 2 ^ (ex + 1074) = Z.pos mz * 2 ^ (ez + 1074)).
  { rewrite Hmz, <- Z.mul_assoc, <- Z.pow_add_r by lia. f_equal. f_equal. lia. }
  rewrite HV.
  rewrite Z.log2_mul_pow2 by lia.
  rewrite digits2_pos_log2 in Hdz.
  replace (Z.max (ez + 1074 + Z.log2 (Z.pos mz) + 1 - 53) 0) with (n + (ez + 1074))
    by (subst n fe; lia).
  rewrite rne_scale by lia.
  f_equal. f_equal. subst n. lia.
Qed.

Lemma rne_mono (m1 m2 n : Z) :
  0 <= n -> m1 <= m2 -> rne m1 n <= rne m2 n.
Proof.
  intros Hn Hm.
  pose proof (pow2_pos n Hn) as Hp.
  pose proof (Z.div_le_mono m1 m2 (2 ^ n) Hp Hm) as Hq.
  pose proof (rne_bounds m1 n Hn). pose proof (rne_bounds m2 n Hn).
  destruct (Z.eq_dec (m1 / 2 ^ n) (m2 / 2 ^ n)) as [E | N]; [|lia].
  pose proof (Z.div_mod m1 (2 ^ n) ltac:(lia)) as D1.
  pose proof (Z.div_mod m2 (2 ^ n) ltac:(lia)) as D2.
  unfold rne in *. rewrite <- E in *.
  set (q := m1 / 2 ^ n) in *. set (P := 2 ^ n) in *.
  set (r1 := m1 mod P) in *. set (r2 := m2 mod P) in *.
  assert (Hr : r1 <= r2) by nia.
  destruct (Z.ltb_spec P (2 * r1)); destruct (Z.ltb_spec P (2 * r2));
    destruct (Z.eqb_spec (2 * r1) P); destruct (Z.eqb_spec (2 * r2) P);
    destruct (Z.odd q); cbn [orb andb]; lia.
Qed.

Lemma rnd_upper (V : Z) : 0 < V -> rnd V <= 2 ^ (Z.log2 V + 1).
Proof.
  intros HV. unfold rnd.
  pose proof (Z.log2_spec V HV) as [Hlo Hhi].
  pose proof (Z.log2_nonneg V) as HL.
  set (L := Z.log2 V) in *. set (k := Z.max (L + 1 - 53) 0).
  set (g := L + 1 - k).
  assert (Hk : 0 <= k) by (subst k; lia).
  assert (Hg : 1 <= g) by (subst g k; lia).
  replace (Z.succ L) with (k + g) in Hhi by (subst g; lia).
  assert (Hq : V / 2 ^ k < 2 ^ g).
  { apply Z.div_lt_upper_bound; [apply pow2_pos; lia|].
    rewrite <- Z.pow_add_r by lia. exact Hhi. }
  pose proof (rne_bounds V k Hk).
  replace (L + 1) with (g + k) by (subst g; lia).
  rewrite Z.pow_add_r by lia.
  apply Z.mul_le_mono_nonneg_r; [apply Z.pow_nonneg; lia | lia].
Qed.

Lemma rnd_lower (V : Z) : 0 < V -> 2 ^ Z.log2 V <= rnd V.
Proof.
  intros HV. unfold rnd.
  pose proof (Z.log2_spec V HV) as [Hlo Hhi].
  pose proof (Z.log2_nonneg V) as HL.
  set (L := Z.log2 V) in *. set (k := Z.max (L + 1 - 53) 0).
  assert (Hk : 0 <= k <= L) by (subst k; lia).
  assert (Hq : 2 ^ (L - k) <= V / 2 ^ k).
  { apply Z.div_le_lower_bound; [apply pow2_pos; lia|].
    rewrite <- Z.pow_add_r by lia. replace (k + (L - k)) with L by ring.
    exact Hlo. }
  pose proof (rne_bounds V k ltac:(lia)).
  replace L with (L - k + k) at 1 by ring.
  rewrite Z.pow_add_r by lia.
  apply Z.mul_le_mono_nonneg_r; [apply Z.pow_nonneg; lia | lia].
Qed.

(** Rounding keeps the order. *)
Lemma rnd_mono (V1 V2 : Z) : 0 < V1 -> V1 <= V2 -> rnd V1 <= rnd V2.
Proof.
  intros H1 H12.
  pose proof (Z.log2_le_mono V1 V2 H12) as HL.
  destruct (Z.eq_dec (Z.max (Z.log2 V1 + 1 - 53) 0) (Z.max (Z.log2 V2 + 1 - 53) 0))
    as [E | N].
  - unfold rnd. rewrite <- E.
    apply Z.mul_le_mono_nonneg_r; [apply Z.pow_nonneg; lia|].
    apply rne_mono; lia.
  - pose proof (rnd_upper V1 H1). pose proof (rnd_lower V2 ltac:(lia)).
    pose proof (Z.log2_nonneg V1).
    pose proof (pow2_le (Z.log2 V1 + 1) (Z.log2 V2) ltac:(lia)). lia.
Qed.

Lemma rnd_inf_mono (V1 V2 : Z) : 0 < V1 -> V1 <= V2 -> rnd_inf V1 <= rnd_inf V2.
Proof.
  intros H1 H12. unfold rnd_inf.
  pose proof (rnd_mono V1 V2 H1 H12). lia.
Qed.

(** What validity says of a finite float. *)
Lemma bounded_facts (m : positive) (e : Z) :
  bounded prec emax m e = true ->
  -1074 <= e <= 971 /\ Z.pos m < 2 ^ 53 /\ (e = -1074 \/ 2 ^ 52 <= Z.pos m) /\
  fexp prec emax (Z.pos (digits2_pos m) + e) = e.
Proof.
  unfold bounded, canonical_mantissa. rewrite andb_true_iff, Z.eqb_eq, Z.leb_le.
  change (emax - prec) with 971. rewrite fexp64. intros [Hc He].
  pose proof (digits_bounds m) as [Hlo Hhi].
  set (g := Z.pos (digits2_pos m)) in *.
  assert (1 <= g) by (subst g; lia).
  repeat split; try lia.
  - pose proof (pow2_le g 53 ltac:(lia)). lia.
  - destruct (Z.eq_dec e (-1074)); [now left | right].
    replace (g - 1) with 52 in Hlo by lia. exact Hlo.
Qed.

(** A valid float is its own rounding. *)
Lemma binary_round_valid (m : positive) (e : Z) :
  bounded prec emax m e = true ->
  binary_round prec emax false m e = S754_finite false m e.
Proof.
  intros Hb. pose proof (bounded_facts m e Hb) as (He & _ & _ & Hc).
  unfold binary_round. rewrite Hc.
  unfold shl_align. rewrite Z.sub_diag.
  unfold binary_round_aux, shr_fexp. cbn [Zdigits2 shr_record_of_loc].
  rewrite Hc, Z.sub_diag.
  cbn [shr shr_m loc_of_shr_record round_nearest_even Zdigits2].
  rewrite Hc, Z.sub_diag. cbn [shr shr_m].
  replace (e <=? emax - prec) with true; [reflexivity|].
  symmetry. apply Z.leb_le. change (emax - prec) with 971. lia.
Qed.

Lemma ord_valid (m : positive) (e : Z) :
  bounded prec emax m e = true ->
  rnd_inf (Z.pos m * 2 ^ (e + 1074)) = Z.pos m * 2 ^ (e + 1074).
Proof.
  intros Hb. pose proof (bounded_facts m e Hb) as (He & _).
  destruct (binary_round_value m e ltac:(lia)) as [_ H].
  rewrite binary_round_valid in H by exact Hb. symmetry. exact H.
Qed.

Lemma not_negative_cases (x : spec_float) :
  not_negative x = true ->
  (exists s, x = S754_zero s) \/ x = S754_infinity false \/
  (exists m e, x = S754_finite false m e).
Proof.
  destruct x as [s | [] | | [] m e]; try discriminate; intros _; eauto.
Qed.

(** The order of the floats that are not negative is that of [ord]. *)
Lemma ord_leb (x y : spec_float) :
  valid_binary x = true -> valid_binary y = true ->
  not_negative x = true -> not_negative y = true ->
  ord x <= ord y -> SFleb x y = true.
Proof.
  intros Vx Vy Nx Ny Hord.
  destruct (not_negative_cases x Nx) as [[sx ->] | [-> | (mx & ex & ->)]];
    destruct (not_negative_cases y Ny) as [[sy ->] | [-> | (my & ey & ->)]];
    try reflexivity; cbn [ord] in Hord.
  - (* the infinity and a zero *)
    pose proof (pow2_pos 2098 ltac:(lia)). lia.
  - (* the infinity and a finite float *)
    pose proof (bounded_facts my ey Vy) as (He & Hm & _).
    pose proof (pow2_le (ey + 1074) 2045 ltac:(lia)).
    pose proof (pow2_pos (ey + 1074) ltac:(lia)).
    change (2 ^ 2098) with (2 ^ 53 * 2 ^ 2045) in Hord. nia.
  - (* a finite float and a zero *)
    pose proof (bounded_facts mx ex Vx) as (He & _).
    pose proof (pow2_pos (ex + 1074) ltac:(lia)). nia.
  - (* two finite floats *)
    pose proof (bounded_facts mx ex Vx) as (Hex & Hmx & Hnx & _).
    pose proof (bounded_facts my ey Vy) as (Hey & Hmy & Hny & _).
    unfold SFleb, SFcompare.
    destruct (Z.compare_spec ex ey) as [E | L | G].
    + subst ey. pose proof (pow2_pos (ex + 1074) ltac:(lia)).
      assert (Hm : (mx <= my)%positive) by nia.
      rewrite Pos.compare_cont_spec. cbn [Pos.switch_Eq].
      apply Pos.compare_le_iff in Hm.
      destruct (mx ?= my)%positive; try reflexivity. now elim Hm.
    + reflexivity.
    + exfalso.
      destruct Hnx as [? | Hnx]; [lia|].
      pose proof (pow2_le (ey + 1074 + 1) (ex + 1074) ltac:(lia)) as Hp.
      rewrite pow2_succ in Hp by lia.
      pose proof (pow2_pos (ey + 1074) ltac:(lia)).
      change (2 ^ 53) with (2 * 2 ^ 52) in Hmy. nia.
Qed.

Lemma shl_align_value (mx : positive) (ex ez : Z) :
  ez <= ex ->
  Z.pos (fst (shl_align mx ex ez)) = Z.pos mx * 2 ^ (ex - ez).
Proof.
  intros H. unfold shl_align. destruct (ez - ex) as [|p|p] eqn:E; cbn [fst]; try lia.
  - replace (ex - ez) with 0 by lia. lia.
  - rewrite pos_iter_xO. f_equal. f_equal. lia.
Qed.

Lemma iter_shr_1_nonneg (j : nat) (mrs : shr_record) :
  0 <= shr_m mrs -> 0 <= shr_m (Nat.iter j shr_1 mrs).
Proof.
  intros H. induction j as [|j IH]; [exact H|].
  cbn [Nat.iter nat_rect]. fold (Nat.iter j shr_1 mrs).
  destruct (Nat.iter j shr_1 mrs) as [m r s]. cbn [shr_m] in IH.
  rewrite shr_1_nonneg by exact IH. cbn [shr_m]. apply Z.div_pos; lia.
Qed.

Lemma shr_nonneg (mrs : shr_record) (e n : Z) :
  0 <= shr_m mrs -> 0 <= shr_m (fst (shr mrs e n)).
Proof.
  intros H. destruct n as [|p|p]; cbn [shr fst]; try exact H.
  rewrite iter_pos_nat. now apply iter_shr_1_nonneg.
Qed.

Lemma round_nearest_even_nonneg (m : Z) (l : location) :
  0 <= m -> 0 <= round_nearest_even m l.
Proof.
  intros H. destruct l as [|[]]; cbn [round_nearest_even]; try lia.
  destruct (Z.even m); lia.
Qed.

(** [binary_round_aux] gives the sign it is given, to a zero, a finite
    float or an infinity. *)
Lemma binary_round_aux_sign (sx : bool) (m : positive) (e : Z) :
  has_sign sx (binary_round_aux prec emax sx (Z.pos m) e loc_Exact) = true.
Proof.
  unfold binary_round_aux, shr_fexp. cbn [shr_record_of_loc].
  pose proof (shr_nonneg (Build_shr_record (Z.pos m) false false) e
                (fexp prec emax (Zdigits2 (Z.pos m) + e) - e) ltac:(cbn; lia)) as H1.
  destruct (shr (Build_shr_record (Z.pos m) false false) e _) as [mrs' e'].
  cbn [fst] in H1.
  pose proof (round_nearest_even_nonneg _ (loc_of_shr_record mrs') H1) as H2.
  set (m1 := round_nearest_even (shr_m mrs') (loc_of_shr_record mrs')) in *.
  pose proof (shr_nonneg (Build_shr_record m1 false false) e'
                (fexp prec emax (Zdigits2 m1 + e') - e') H2) as H3.
  destruct (shr (Build_shr_record m1 false false) e' _) as [mrs'' e''].
  cbn [fst] in H3.
  destruct (shr_m mrs'') as [|p|p]; [reflexivity | | lia].
  destruct (e'' <=? emax - prec); cbn [has_sign]; apply Bool.eqb_reflx.
Qed.

Lemma binary_round_sign (sx : bool) (m : positive) (e : Z) :
  has_sign sx (binary_round prec emax sx m e) = true.
Proof.
  unfold binary_round. destruct (shl_align m e _) as [mz ez].
  apply binary_round_aux_sign.
Qed.

Lemma has_sign_false (x : spec_float) : has_sign false x = not_negative x.
Proof. destruct x as [s | [] | | [] m e]; reflexivity. Qed.

Lemma has_sign_true (x : spec_float) : has_sign true x = not_positive x.
Proof. destruct x as [s | [] | | [] m e]; reflexivity. Qed.

(** A float that is not positive is below every one that is not negative. *)
Lemma not_positive_leb (x y : spec_float) :
  not_positive x = true -> not_negative y = true -> SFleb x y = true.
Proof.
  destruct x as [sx | [] | | [] mx ex]; try discriminate;
    destruct y as [sy | [] | | [] my ey]; try discriminate; reflexivity.
Qed.

Section FiniteOperands.

Variables (mx mc : positive) (ex ec : Z).
Hypothesis Hx : bounded prec emax mx ex = true.
Hypothesis Hc : bounded prec emax mc ec = true.

Let x := S754_finite false mx ex.
Let c := S754_finite false mc ec.
Let ez := Z.min ex ec.
Let sx := Z.pos (fst (shl_align mx ex ez)).
Let sc := Z.pos (fst (shl_align mc ec ez)).

Lemma aligned_values :
  -1074 <= ez /\ sx * 2 ^ (ez + 1074) = ord x /\ sc * 2 ^ (ez + 1074) = ord c.
Proof.
  pose proof (bounded_facts mx ex Hx) as (Hex & _).
  pose proof (bounded_facts mc ec Hc) as (Hec & _).
  subst sx sc x c. cbn [ord].
  rewrite !shl_align_value by (subst ez; lia).
  rewrite <- !Z.mul_assoc, <- !Z.pow_add_r by (subst ez; lia).
  replace (ex - ez + (ez + 1074)) with (ex + 1074) by ring.
  replace (ec - ez + (ez + 1074)) with (ec + 1074) by ring.
  subst ez. repeat split; lia.
Qed.

Lemma ord_finite_pos : 0 < ord x /\ 0 < ord c.
Proof.
  pose proof (bounded_facts mx ex Hx) as (Hex & _).
  pose proof (bounded_facts mc ec Hc) as (Hec & _).
  pose proof (pow2_pos (ex + 1074) ltac:(lia)).
  pose proof (pow2_pos (ec + 1074) ltac:(lia)).
  subst x c. cbn [ord]. nia.
Qed.

(** The sum of two positive floats is the rounding of the sum of their
    values. *)
Lemma add_finite :
  not_negative (SF64add x c) = true /\
  ord (SF64add x c) = rnd_inf (ord x + ord c).
Proof.
  destruct aligned_values as (Hez & Hsx & Hsc).
  unfold SF64add, SFadd, x, c. cbn [cond_Zopp]. fold ez. fold sx. fold sc.
  unfold sx, sc. cbn [Z.add binary_normalize].
  destruct (binary_round_value
              (fst (shl_align mx ex ez) + fst (shl_align mc ec ez)) ez Hez)
    as [Hshape Hord].
  split; [exact Hshape|]. rewrite Hord. f_equal.
  rewrite Pos2Z.inj_add, Z.mul_add_distr_r. unfold sx, sc in Hsx, Hsc.
  rewrite Hsx, Hsc. reflexivity.
Qed.

(** Their difference is the rounding of the difference of their values when
    that is positive, and is not positive otherwise. *)
Lemma sub_finite :
  (0 < ord x - ord c /\ not_negative (SF64sub x c) = true /\
   ord (SF64sub x c) = rnd_inf (ord x - ord c)) \/
  not_positive (SF64sub x c) = true.
Proof.
  destruct aligned_values as (Hez & Hsx & Hsc).
  pose proof (pow2_pos (ez + 1074) ltac:(lia)) as Hp.
  unfold SF64sub, SFsub, x, c. cbn [cond_Zopp]. fold ez. fold sx. fold sc.
  destruct (sx - sc) as [|d|d] eqn:E.
  - right. reflexivity.
  - left. cbn [binary_normalize].
    destruct (binary_round_value d ez Hez) as [Hshape Hord].
    assert (Hval : Z.pos d * 2 ^ (ez + 1074) = ord x - ord c).
    { rewrite <- E, Z.mul_sub_distr_r, Hsx, Hsc. reflexivity. }
    rewrite Hord, Hval. repeat split; try assumption.
    fold x c. rewrite <- Hval. nia.
  - right. cbn [binary_normalize]. rewrite <- has_sign_true.
    apply binary_round_sign.
Qed.

End FiniteOperands.

Lemma rnd_inf_infinity : rnd_inf (2 ^ 2098) = 2 ^ 2098.
Proof. vm_compute. reflexivity. Qed.

Lemma ord_fixed (p : spec_float) :
  valid_binary p = true -> not_negative p = true -> 0 < ord p ->
  rnd_inf (ord p) = ord p.
Proof.
  intros Vp Np Hpos.
  destruct (not_negative_cases p Np) as [[s ->] | [-> | (m & e & ->)]];
    cbn [ord] in *.
  - lia.
  - exact rnd_inf_infinity.
  - now apply ord_valid.
Qed.

Section Offsets.

(** A float that is not negative, and two positive constants. *)
Variable p : spec_float.
Variables (mc mc' : positive) (ec ec' : Z).

Hypothesis Vp : valid_binary p = true.
Hypothesis Np : not_negative p = true.
Hypothesis Hc : bounded prec emax mc ec = true.
Hypothesis Hc' : bounded prec emax mc' ec' = true.

Let c := S754_finite false mc ec.
Let c' := S754_finite false mc' ec'.

Lemma leb_add :
  valid_binary (SF64add p c) = true -> SFleb p (SF64add p c) = true.
Proof.
  intros Vadd.
  destruct (not_negative_cases p Np) as [[s ->] | [-> | (m & e & ->)]];
    try reflexivity.
  destruct (add_finite m mc e ec Vp Hc) as [Nadd Hadd].
  destruct (ord_finite_pos m mc e ec Vp Hc) as [Hpx Hpc].
  apply ord_leb; try assumption. unfold c in *. rewrite Hadd.
  rewrite <- (ord_fixed (S754_finite false m e) Vp Np Hpx) at 1.
  apply rnd_inf_mono; lia.
Qed.

Lemma sub_leb :
  valid_binary (SF64sub p c) = true -> SFleb (SF64sub p c) p = true.
Proof.
  intros Vsub.
  destruct (not_negative_cases p Np) as [[s ->] | [-> | (m & e & ->)]];
    try reflexivity.
  destruct (ord_finite_pos m mc e ec Vp Hc) as [Hpx Hpc].
  destruct (sub_finite m mc e ec Vp Hc) as [(Hpos & Nsub & Hsub) | Nsub].
  - apply ord_leb; try assumption. unfold c in *. rewrite Hsub.
    rewrite <- (ord_fixed (S754_finite false m e) Vp Np Hpx) at 2.
    apply rnd_inf_mono; lia.
  - now apply not_positive_leb.
Qed.

Lemma sub_leb_add :
  valid_binary (SF64sub p c) = true -> valid_binary (SF64add p c') = true ->
  SFleb (SF64sub p c) (SF64add p c') = true.
Proof.
  intros Vsub Vadd.
  destruct (not_negative_cases p Np) as [[s ->] | [-> | (m & e & ->)]];
    try reflexivity.
  destruct (ord_finite_pos m mc e ec Vp Hc) as [Hpx Hpc].
  destruct (ord_finite_pos m mc' e ec' Vp Hc') as [_ Hpc'].
  destruct (add_finite m mc' e ec' Vp Hc') as [Nadd Hadd].
  destruct (sub_finite m mc e ec Vp Hc) as [(Hpos & Nsub & Hsub) | Nsub].
  - apply ord_leb; try assumption. unfold c, c' in *.
    rewrite Hsub, Hadd. apply rnd_inf_mono; lia.
  - now apply not_positive_leb.
Qed.

Lemma add_leb_add :
  ord c <= ord c' ->
  valid_binary (SF64add p c) = true -> valid_binary (SF64add p c') = true ->
  SFleb (SF64add p c) (SF64add p c') = true.
Proof.
  intros Hcc Vadd Vadd'.
  destruct (not_negative_cases p Np) as [[s ->] | [-> | (m & e & ->)]];
    try reflexivity.
  - unfold c, c' in *. apply ord_leb; try assumption; reflexivity.
  - destruct (ord_finite_pos m mc e ec Vp Hc) as [Hpx Hpc].
    destruct (add_finite m mc e ec Vp Hc) as [Nadd Hadd].
    destruct (add_finite m mc' e ec' Vp Hc') as [Nadd' Hadd'].
    apply ord_leb; try assumption. unfold c, c' in *.
    rewrite Hadd, Hadd'. apply rnd_inf_mono; lia.
Qed.

End Offsets.

(** The constants of the generator. *)
Lemma Prim2SF_half : Prim2SF 0.5 = S754_finite false 4503599627370496 (-53).
Proof. vm_compute. reflexivity. Qed.

Lemma Prim2SF_fifth : Prim2SF 0.2 = S754_finite false 7205759403792794 (-55).
Proof. vm_compute. reflexivity. Qed.

Lemma Prim2SF_tenth : Prim2SF 0.1 = S754_finite false 7205759403792794 (-56).
Proof. vm_compute. reflexivity. Qed.

Lemma Prim2SF_hundred : Prim2SF 100 = S754_finite false 7036874417766400 (-46).
Proof. vm_compute. reflexivity. Qed.

(** The order of a price that is not negative and its three offsets. *)
Lemma offsets_ordered (p : float) :
  not_negative (Prim2SF p) = true ->
  (p - 0.5 <=? p)%float = true /\ (p <=? p + 0.5)%float = true /\
  (p - 0.5 <=? p + 0.2)%float = true /\ (p + 0.2 <=? p + 0.5)%float = true.
Proof.
  intros Np.
  pose proof (Prim2SF_valid p) as Vp.
  pose proof (Prim2SF_valid (p - 0.5)) as Vlow.
  pose proof (Prim2SF_valid (p + 0.5)) as Vhigh.
  pose proof (Prim2SF_valid (p + 0.2)) as Vclose.
  rewrite !leb_spec.
  rewrite sub_spec in *. rewrite !add_spec in *.
  rewrite Prim2SF_half, Prim2SF_fifth in *.
  repeat split.
  - apply sub_leb; auto.
  - apply leb_add; auto.
  - apply sub_leb_add; auto.
  - apply add_leb_add; auto. vm_compute. discriminate.
Qed.

(** The prices of the generator are not negative. *)
Lemma price_not_negative (i : nat) :
  not_negative (Prim2SF (100 + float_of_index i * 0.1)) = true.
Proof.
  unfold float_of_index.
  set (n := Uint63.of_Z (Z.of_nat i)).
  assert (Hindex : not_negative (Prim2SF (of_uint63 n)) = true).
  { rewrite of_uint63_spec.
    pose proof (Uint63.to_Z_bounded n) as [Hn _].
    destruct (Uint63.to_Z n) as [|m|m]; [reflexivity| |lia].
    cbn [binary_normalize]. rewrite <- has_sign_false. apply binary_round_sign. }
  assert (Hproduct : not_negative (Prim2SF (of_uint63 n * 0.1)) = true).
  { rewrite mul_spec, Prim2SF_tenth.
    destruct (not_negative_cases _ Hindex) as [[s ->] | [-> | (m & e & ->)]];
      try reflexivity.
    unfold SF64mul, SFmul. cbn [xorb].
    rewrite <- has_sign_false. apply binary_round_aux_sign. }
  rewrite add_spec, Prim2SF_hundred.
  destruct (not_negative_cases _ Hproduct) as [[s ->] | [-> | (m & e & ->)]];
    try reflexivity.
  unfold SF64add, SFadd. cbn [cond_Zopp Z.add binary_normalize].
  rewrite <- has_sign_false. apply binary_round_sign.
Qed.

(** ** The order of the four prices *)

Lemma unit_spread_first_rows (i : nat) :
  (i < 277)%nat -> unit_spread i = true.
Proof.
  intros Hi.
  assert (H : forallb unit_spread (seq 0 277) = true) by (vm_compute; reflexivity).
  rewrite forallb_forall in H. apply H. apply in_seq. lia.
Qed.

(** C3, as the program has it. In every row of every generated frame,
    [low <= open <= high] and [low <= close <= high] in the order of
    [float64]. [high - low] is 1.0 exactly in the rows 0 to 276; it is not
    in every row, since from row 277 on [open + 0.5] is at or above 128 and
    may be rounded. *)
Theorem ohlc_rows_ordered
  (start_date end_date resolution : string) (df : DataFrame Z) (i : nat)
  (row : Row Z) :
  create_sample_data start_date end_date resolution = Return df ->
  iloc df i = Some row ->
  (r_low row <=? r_open row)%float = true /\
  (r_open row <=? r_high row)%float = true /\
  (r_low row <=? r_close row)%float = true /\
  (r_close row <=? r_high row)%float = true /\
  ((i < 277)%nat -> (r_high row - r_low row =? 1)%float = true).
Proof.
  intros Hdf Hrow.
  destruct (create_sample_data_inv _ _ _ _ Hdf) as (start & end_ & _ & _ & ->).
  pose proof (iloc_lt _ _ _ Hrow) as Hi.
  rewrite (sample_frame_iloc _ _ _ _ Hi) in Hrow. cbv zeta in Hrow.
  injection Hrow as <-. cbn [r_open r_high r_low r_close].
  destruct (offsets_ordered _ (price_not_negative i)) as (H1 & H2 & H3 & H4).
  repeat split; try assumption.
  intros Hlt. exact (unit_spread_first_rows i Hlt).
Qed.

Lemma ohlc_rows_ordered_witness :
  let row := mkRow 1735862400000 100.2%float 100.7%float 99.7%float 100.4%float in
  (r_low row <=? r_open row)%float = true /\
  (r_open row <=? r_high row)%float = true /\
  (r_low row <=? r_close row)%float = true /\
  (r_close row <=? r_high row)%float = true /\
  ((2 < 277)%nat -> (r_high row - r_low row =? 1)%float = true).
Proof.
  apply (ohlc_rows_ordered "2025-01-01" "2025-01-03" "1D"
           (mkDataFrame [1735689600000; 1735776000000; 1735862400000]
              [100%float; 100.1%float; 100.2%float]
              [100.5%float; 100.6%float; 100.7%float]
              [99.5%float; 99.6%float; 99.7%float]
              [100.2%float; 100.3%float; 100.4%float]) 2).
  - vm_compute. reflexivity.
  - reflexivity.
Defined.

(** C3, as the claim has it, fails: from 2025-01-01 to 2025-10-05 at one
    row a day, the row of index 277 has open 127.7, and its high minus its
    low is not 1.0. *)
Lemma spread_is_not_always_one :
  exists df row,
    create_sample_data "2025-01-01" "2025-10-05" "1D" = Return df /\
    iloc df 277 = Some row /\
    (r_high row - r_low row =? 1)%float = false /\
    (r_high row - r_low row)%float = 0.99999999999998579%float.
Proof.
  eexists. eexists. split; [vm_compute; reflexivity|].
  split; [vm_compute; reflexivity|].
  split; vm_compute; reflexivity.
Qed.

(** * Further properties of the program *)

(** ** The generator at the edges of its input *)

Lemma to_offset_le_day (freq : string) : to_offset freq <= 86400.
Proof. unfold to_offset. split_ifs; lia. Qed.

(** A range whose end is a day or more before its start has no point. *)
Lemma date_range_reversed (start end_ : Timestamp) (freq : string) :
  end_ + 86400 <= start -> date_range start end_ freq = [].
Proof.
  intros H. apply length_zero_iff_nil. rewrite date_range_length.
  pose proof (to_offset_pos freq) as Hpos.
  pose proof (to_offset_le_day freq) as Hday.
  assert ((end_ - start) / to_offset freq < 0).
  { apply Z.div_lt_upper_bound; lia. }
  lia.
Qed.

Lemma sample_frame_reversed (start end_ : datetime) (resolution : string) :
  valid_date start = true -> valid_date end_ = true -> date_lt end_ start ->
  sample_frame start end_ resolution = mkDataFrame [] [] [] [] [].
Proof.
  intros Vs Ve Hlt. pose proof (ordinal_lt _ _ Ve Vs Hlt) as Hord.
  unfold sample_frame. rewrite date_range_reversed; [reflexivity|].
  unfold Timestamp_of_datetime. lia.
Qed.





(** ** Resolutions outside the table *)

Lemma dict_get_freq_map_unknown (resolution : string) :
  resolution <> "1min" -> resolution <> "5min" -> resolution <> "15min" ->
  resolution <> "30min" -> resolution <> "1H" ->
  dict_get freq_map resolution "1D" = "1D".
Proof.
  intros N1 N2 N3 N4 N5. unfold freq_map, dict_get.
  rewrite !(String.eqb_sym _ resolution).
  apply String.eqb_neq in N1, N2, N3, N4, N5.
  rewrite N1, N2, N3, N4, N5.
  destruct (String.eqb resolution "1D"); reflexivity.
Qed.

(** X3. A resolution that is none of 1min, 5min, 15min, 30min and 1H is
    taken for 1D: [create_sample_data] gives the outcome it gives for the
    resolution 1D, without a warning or an error. *)
Theorem unknown_resolution_is_daily
  (start_date end_date resolution : string) :
  resolution <> "1min" -> resolution <> "5min" -> resolution <> "15min" ->
  resolution <> "30min" -> resolution <> "1H" ->
  create_sample_data start_date end_date resolution
  = create_sample_data start_date end_date "1D".
Proof.
  intros N1 N2 N3 N4 N5. unfold create_sample_data.
  rewrite (dict_get_freq_map_unknown resolution N1 N2 N3 N4 N5).
  reflexivity.
Qed.

Lemma unknown_resolution_is_daily_witness :
  create_sample_data "2025-01-01" "2025-01-03" "weekly"
  = create_sample_data "2025-01-01" "2025-01-03" "1D".
Proof.
  apply (unknown_resolution_is_daily "2025-01-01" "2025-01-03" "weekly");
    discriminate.
Defined.

(** ** Dates in the documented form *)

Lemma valid_date_bounds (d : datetime) :
  valid_date d = true ->
  1 <= year d <= 9999 /\ 1 <= month d <= 12 /\ 1 <= day d <= 31.
Proof.
  unfold valid_date, days_in_month. bool_to_Z. intros H.
  repeat split; try lia. revert H. split_ifs; lia.
Qed.

Lemma ordinal_range (d : datetime) :
  valid_date d = true -> -719162 <= ordinal d <= 2932896.
Proof.
  intros V. pose proof (valid_date_bounds d V) as (Hy & Hm & Hd).
  assert (L : date_le (mkdate 1 1 1) d).
  { destruct d as [y m dd]. cbn [year month day] in *. unfold date_le, date_lt.
    cbn [year month day].
    destruct (Z.eq_dec y 1), (Z.eq_dec m 1), (Z.eq_dec dd 1); subst;
      first [right; reflexivity | left; lia]. }
  assert (U : date_le d (mkdate 9999 12 31)).
  { destruct d as [y m dd]. cbn [year month day] in *. unfold date_le, date_lt.
    cbn [year month day].
    destruct (Z.eq_dec y 9999), (Z.eq_dec m 12), (Z.eq_dec dd 31); subst;
      first [right; reflexivity | left; lia]. }
  pose proof (ordinal_le (mkdate 1 1 1) d eq_refl V L) as H1.
  pose proof (ordinal_le d (mkdate 9999 12 31) V eq_refl U) as H2.
  change (ordinal (mkdate 1 1 1)) with (-719162) in H1.
  change (ordinal (mkdate 9999 12 31)) with 2932896 in H2. lia.
Qed.

(** The date of the day number of a date is the date. *)
Lemma civil_of_ordinal (d : datetime) :
  valid_date d = true -> civil_from_days (ordinal d) = d.
Proof.
  intros V. pose proof (ordinal_range d V) as Hr.
  pose proof (civil_from_days_valid _ Hr) as V'.
  pose proof (civil_days_roundtrip (ordinal d)) as E.
  set (d' := civil_from_days (ordinal d)) in *.
  assert (N1 : ~ date_lt d d')
    by (intros H; pose proof (ordinal_lt _ _ V V' H); lia).
  assert (N2 : ~ date_lt d' d)
    by (intros H; pose proof (ordinal_lt _ _ V' V H); lia).
  destruct d as [y m dd], d' as [y' m' dd']. unfold date_lt in *.
  cbn [year month day] in *.
  assert (y = y') by lia. assert (m = m') by lia. assert (dd = dd') by lia.
  congruence.
Qed.

Lemma digit_char_eqb (n k : Z) (c : ascii) :
  n mod 10 = k -> c = ascii_of_N (Z.to_N k + 48) ->
  Ascii.eqb (digit_char n) c = true.
Proof. intros <- ->. apply Ascii.eqb_refl. Qed.

Lemma char_in_digit_char (lo hi : ascii) (n : Z) :
  Z.of_N (N_of_ascii lo) - 48 <= n mod 10 <= Z.of_N (N_of_ascii hi) - 48 ->
  char_in lo hi (digit_char n) = true.
Proof.
  intros H. unfold char_in. rewrite digit_char_code.
  pose proof (Z.mod_pos_bound n 10 ltac:(lia)).
  apply andb_true_iff; split; apply N.leb_le; lia.
Qed.

Lemma match_year_pad4 (y : Z) (rest : string) :
  0 <= y <= 9999 -> match_year (pad4 y ++ rest) = Some (y, rest).
Proof.
  intros Hy. unfold pad4, pad2. cbn [append match_year].
  rewrite !is_digit_digit_char, !digit_val_digit_char. cbn [andb].
  f_equal. f_equal. euclid.
Qed.

Lemma match_month_dash_pad2 (m : Z) (rest : string) :
  1 <= m <= 12 ->
  match_month_dash (pad2 m ++ String "-" rest) = Some (m, rest).
Proof.
  intros Hm. unfold pad2. cbn [append match_month_dash].
  rewrite (digit_char_not "-") by (left; vm_compute; reflexivity).
  rewrite Ascii.eqb_refl. cbn [andb].
  rewrite !digit_val_digit_char.
  assert (Hcase : (Ascii.eqb (digit_char (m / 10)) "1" && char_in "0" "2" (digit_char m)
                   || Ascii.eqb (digit_char (m / 10)) "0" && char_in "1" "9" (digit_char m))
                  = true).
  { destruct (Z_lt_le_dec m 10).
    - apply orb_true_iff. right. apply andb_true_iff. split.
      + apply (digit_char_eqb _ 0); [euclid | reflexivity].
      + apply char_in_digit_char. cbn. euclid.
    - apply orb_true_iff. left. apply andb_true_iff. split.
      + apply (digit_char_eqb _ 1); [euclid | reflexivity].
      + apply char_in_digit_char. cbn. euclid. }
  rewrite Hcase. f_equal. f_equal. euclid.
Qed.

Lemma match_day_pad2 (d : Z) :
  1 <= d <= 31 -> match_day (pad2 d) = Some (d, EmptyString).
Proof.
  intros Hd. unfold pad2. cbn [match_day].
  rewrite !digit_val_digit_char.
  assert (Hcase : (Ascii.eqb (digit_char (d / 10)) "3" && char_in "0" "1" (digit_char d)
                   || char_in "1" "2" (digit_char (d / 10)) && is_digit (digit_char d)
                   || Ascii.eqb (digit_char (d / 10)) "0" && char_in "1" "9" (digit_char d))
                  = true).
  { rewrite is_digit_digit_char.
    destruct (Z_lt_le_dec d 10); [|destruct (Z_lt_le_dec d 30)].
    - apply orb_true_iff. right. apply andb_true_iff. split.
      + apply (digit_char_eqb _ 0); [euclid | reflexivity].
      + apply char_in_digit_char. cbn. euclid.
    - apply orb_true_iff. left. apply orb_true_iff. right.
      apply andb_true_iff. split; [|reflexivity].
      apply char_in_digit_char. cbn. euclid.
    - apply orb_true_iff. left. apply orb_true_iff. left.
      apply andb_true_iff. split.
      + apply (digit_char_eqb _ 3); [euclid | reflexivity].
      + apply char_in_digit_char. cbn. euclid. }
  rewrite Hcase. f_equal. f_equal. euclid.
Qed.

Lemma dash_append (s : string) : "-" ++ s = String "-" s.
Proof. reflexivity. Qed.

(** [strptime] reads the documented form of every date back. *)
Lemma strptime_isoformat (d : datetime) :
  valid_date d = true -> strptime (isoformat d) = Return d.
Proof.
  intros V. pose proof (valid_date_bounds d V) as (Hy & Hm & Hd).
  unfold strptime, regex_match, isoformat.
  rewrite match_year_pad4 by lia.
  rewrite !dash_append. cbn [match_dash].
  rewrite match_month_dash_pad2 by lia.
  rewrite match_day_pad2 by lia.
  unfold valid_date in V. revert V. bool_to_Z. intros V.
  replace (year d <? 1) with false by (symmetry; apply Z.ltb_ge; lia).
  replace (days_in_month (year d) (month d) <? day d) with false
    by (symmetry; apply Z.ltb_ge; lia).
  destruct d; reflexivity.
Qed.



(** ** The first line of an export *)

Lemma string_append_assoc (a b c : string) : (a ++ b) ++ c = a ++ (b ++ c).
Proof.
  induction a as [|ch a IH]; [reflexivity|].
  change (String ch ((a ++ b) ++ c) = String ch (a ++ (b ++ c))). now rewrite IH.
Qed.

Lemma strftime_midnight (d : datetime) :
  valid_date d = true ->
  strftime (Timestamp_timestamp (Timestamp_of_datetime d) * 1000)
  = isoformat d ++ " 00:00".
Proof.
  intros V. unfold strftime, Timestamp_timestamp, Timestamp_of_datetime.
  replace (ordinal d * 86400 * 1000 / 60000) with (ordinal d * 1440) by euclid.
  rewrite Z.div_mul, Z.mod_mul by lia.
  rewrite (civil_of_ordinal d V).
  unfold isoformat. cbn [Calendar.year Calendar.month Calendar.day].
  change (0 / 60) with 0. change (0 mod 60) with 0.
  rewrite !string_append_assoc. reflexivity.
Qed.

(** The lines of a frame once its timestamps are formatted. *)
Lemma rows_format_timestamps (df : DataFrame Z) :
  rows (format_timestamps df)
  = map (fun r => mkRow (strftime (r_timestamp r)) (r_open r) (r_high r)
                        (r_low r) (r_close r)) (rows df).
Proof.
  unfold rows, format_timestamps. cbn [timestamp open high low close].
  apply zip_rows_map_timestamp.
Qed.

(** The first line of a frame of the generator that has lines. *)
Lemma sample_frame_head (start end_ : datetime) (resolution : string) :
  ordinal start <= ordinal end_ ->
  exists rest,
    rows (sample_frame start end_ resolution)
    = mkRow (Timestamp_timestamp (Timestamp_of_datetime start) * 1000)
            100%float 100.5%float 99.5%float 100.2%float :: rest.
Proof.
  intros Hle.
  pose proof (date_range_length (Timestamp_of_datetime start)
                (Timestamp_of_datetime end_) (dict_get freq_map resolution "1D")) as Hlen.
  pose proof (to_offset_pos (dict_get freq_map resolution "1D")) as Hpos.
  assert (H0 : 0 <= (Timestamp_of_datetime end_ - Timestamp_of_datetime start)
                    / to_offset (dict_get freq_map resolution "1D"))
    by (apply Z.div_pos; [unfold Timestamp_of_datetime; lia | lia]).
  pose proof (date_range_nth (Timestamp_of_datetime start)
                (Timestamp_of_datetime end_) (dict_get freq_map resolution "1D") 0) as Hnth.
  unfold rows, sample_frame. cbn [timestamp open high low close].
  destruct (date_range _ _ _) as [|t ts]; cbn [List.length] in *; [lia|].
  specialize (Hnth ltac:(lia)). cbn [nth_error] in Hnth.
  assert (Ht : t = Timestamp_of_datetime start)
    by (change (Z.of_nat 0) with 0 in Hnth; injection Hnth as Hnth; lia).
  subst t. unfold prices_of. cbn [seq map zip_rows].
  eexists. apply f_equal2; [|reflexivity].
  change (100 + float_of_index 0 * 0.1)%float with 100%float.
  change (100 + 0.5)%float with 100.5%float.
  change (100 - 0.5)%float with 99.5%float.
  change (100 + 0.2)%float with 100.2%float.
  reflexivity.
Qed.

(** The file that the exporter of the program leaves for two dates that
    parse, the start not after the end. *)
Lemma download_financial_data_file
  float_repr instrument resolution start_date end_date data_source api_key
  data_dir w start end_ :
  strptime start_date = Return start ->
  strptime end_date = Return end_ ->
  date_le start end_ ->
  read_file (csv_path data_dir instrument resolution)
    (files (world_after
              (download_financial_data float_repr instrument resolution
                 start_date end_date data_source api_key data_dir) w))
  = Some (csv_text float_repr
            (format_timestamps (sample_frame start end_ resolution))).
Proof.
  intros Hs He Hle.
  pose proof (ordinal_le _ _ (strptime_valid _ _ Hs) (strptime_valid _ _ He) Hle) as Hord.
  destruct (download_financial_data_frame float_repr instrument resolution
              start_date end_date data_source api_key data_dir w
              (sample_frame start end_ resolution)
              (generated_parsed _ _ resolution _ _ Hs He)
              (sample_frame_nonempty _ _ _ Hord)) as (w' & _ & Hrun).
  unfold world_after. rewrite Hrun. cbn [snd files].
  apply read_file_written.
Qed.



(** ** Reading the files of the generator back *)

Lemma resolution_step_ms_minutes (resolution : string) :
  exists k, resolution_step_ms resolution = 60000 * k.
Proof.
  unfold resolution_step_ms.
  destruct (String.eqb resolution "1min"); [now exists 1|].
  destruct (String.eqb resolution "5min"); [now exists 5|].
  destruct (String.eqb resolution "15min"); [now exists 15|].
  destruct (String.eqb resolution "30min"); [now exists 30|].
  destruct (String.eqb resolution "1H"); [now exists 60|].
  now exists 1440.
Qed.

(** Every timestamp of the generator is a whole minute between the start
    and the end. *)
Lemma sample_frame_timestamps_in (start end_ : datetime) (resolution : string) t :
  In t (timestamp (sample_frame start end_ resolution)) ->
  ordinal start * 86400000 <= t <= ordinal end_ * 86400000 /\
  60000 * (t / 60000) = t.
Proof.
  intros Hin. apply In_nth_error in Hin. destruct Hin as [i Hi].
  assert (Hlt : (i < len (sample_frame start end_ resolution))%nat)
    by (apply nth_error_Some; unfold len; congruence).
  rewrite (sample_frame_timestamp _ _ _ _ Hlt) in Hi. injection Hi as <-.
  rewrite sample_frame_len in Hlt.
  pose proof (step_seconds_spec resolution) as Hstep.
  pose proof (step_seconds_pos resolution) as Hpos.
  destruct (resolution_step_ms_minutes resolution) as [k Hk].
  unfold Timestamp_of_datetime in *.
  set (q := (ordinal end_ * 86400 - ordinal start * 86400) / step_seconds resolution) in *.
  assert (Hq : q * step_seconds resolution <= ordinal end_ * 86400 - ordinal start * 86400).
  { unfold q. rewrite Z.mul_comm. apply Z.mul_div_le. lia. }
  assert (Hi : Z.of_nat i <= q) by lia.
  split.
  - rewrite <- Hstep. nia.
  - rewrite Hk.
    replace (ordinal start * 86400 * 1000 + Z.of_nat i * (60000 * k))
      with ((ordinal start * 1440 + Z.of_nat i * k) * 60000) by ring.
    rewrite Z.div_mul by lia. ring.
Qed.

Lemma map_read_back (rs : list (Row Z)) :
  (forall r, In r rs -> 60000 * (r_timestamp r / 60000) = r_timestamp r) ->
  map read_back rs = rs.
Proof.
  induction rs as [|r rs IH]; intros H; [reflexivity|].
  cbn [map]. rewrite IH by (intros r' Hr'; apply H; now right).
  f_equal. unfold read_back. rewrite (H r) by now left.
  now destruct r.
Qed.



(** ** The exporter of the program and the file system *)

(** The run of [download_financial_data] in full: the directory is made,
    the dispatcher prints its line, and the outcome of the generator
    decides the rest. *)
Lemma download_financial_data_run
  float_repr instrument resolution start_date end_date data_source api_key
  data_dir w :
  download_financial_data float_repr instrument resolution start_date end_date
    data_source api_key data_dir w
  = let dirs' := dirs (world_after (makedirs data_dir) w) in
    let line := branch_message instrument resolution data_source in
    let path := csv_path data_dir instrument resolution in
    let nothing :=
      (Return None,
       mkWorld (stdout w ++ [line; no_data_warning instrument resolution])%list
               dirs' (files w)) in
    match generated start_date end_date resolution with
    | Raise e =>
        (Raise e,
         mkWorld (stdout w ++ [line; fetch_error_message e])%list dirs' (files w))
    | Return None => nothing
    | Return (Some df) =>
        if empty df then nothing
        else
          (Return (Some path),
           mkWorld (stdout w ++ [line; saved_message path])%list dirs'
                   ((path, csv_text float_repr (format_timestamps df))
                      :: remove_file path (files w)))
    end.
Proof.
  cbv zeta. unfold download_financial_data.
  pose proof (fetch_data_from_api_run instrument resolution start_date end_date
                data_source api_key (world_after (makedirs data_dir) w)) as Hrun.
  destruct (generated start_date end_date resolution) as [[df|]|e].
  - destruct (empty df) eqn:E.
    + rewrite (export_nothing _ _ _ _ _ _ _ _ _ _ _ _ Hrun E).
      cbn [stdout dirs files]. now rewrite <- app_assoc.
    + rewrite (export_frame _ _ _ _ _ _ _ _ _ _ _ _ Hrun E).
      cbn [stdout dirs files]. now rewrite <- app_assoc.
  - rewrite (export_nothing _ _ _ _ _ _ _ _ _ _ _ _ Hrun eq_refl).
    cbn [stdout dirs files]. now rewrite <- app_assoc.
  - rewrite (export_raises _ _ _ _ _ _ _ _ _ _ _ _ Hrun). reflexivity.
Qed.

Lemma read_file_remove_other p q fs :
  p <> q -> read_file p (remove_file q fs) = read_file p fs.
Proof.
  intros Hne. induction fs as [|[p0 c] fs IH]; [reflexivity|].
  cbn [remove_file read_file].
  destruct (String.eqb p0 q) eqn:Eq.
  - apply String.eqb_eq in Eq. subst p0.
    destruct (String.eqb q p) eqn:Ep; [|exact IH].
    apply String.eqb_eq in Ep. congruence.
  - cbn [read_file]. now rewrite IH.
Qed.

Lemma read_file_other p q c fs :
  p <> q -> read_file p ((q, c) :: remove_file q fs) = read_file p fs.
Proof.
  intros Hne. cbn [read_file].
  destruct (String.eqb q p) eqn:Ep.
  - apply String.eqb_eq in Ep. congruence.
  - now apply read_file_remove_other.
Qed.

Lemma remove_file_idem p fs :
  remove_file p (remove_file p fs) = remove_file p fs.
Proof.
  induction fs as [|[p0 c] fs IH]; [reflexivity|].
  cbn [remove_file]. destruct (String.eqb p0 p) eqn:E; [exact IH|].
  cbn [remove_file]. now rewrite E, IH.
Qed.

Lemma makedirs_dirs d w :
  dirs (world_after (makedirs d) w)
  = if existsb (String.eqb d) (dirs w) then dirs w else d :: dirs w.
Proof. reflexivity. Qed.

Lemma makedirs_exists d w :
  existsb (String.eqb d) (dirs (world_after (makedirs d) w)) = true.
Proof.
  rewrite makedirs_dirs. destruct (existsb (String.eqb d) (dirs w)) eqn:E; [exact E|].
  cbn [existsb]. now rewrite String.eqb_refl.
Qed.

(** X7. Whatever its arguments and whatever its outcome,
    [download_financial_data] leaves every file other than
    [data_dir/instrument_resolution.csv] as it was. *)
Theorem export_touches_one_file
  (float_repr : float -> string)
  (instrument resolution start_date end_date data_source : string)
  (api_key : option string) (data_dir : string) (w : World) (p : string) :
  p <> csv_path data_dir instrument resolution ->
  read_file p
    (files (world_after
              (download_financial_data float_repr instrument resolution
                 start_date end_date data_source api_key data_dir) w))
  = read_file p (files w).
Proof.
  intros Hne. unfold world_after. rewrite download_financial_data_run. cbv zeta.
  destruct (generated start_date end_date resolution) as [[df|]|e];
    try reflexivity.
  destruct (empty df); [reflexivity|].
  cbn [snd files]. now apply read_file_other.
Qed.

Lemma export_touches_one_file_witness :
  read_file "notes.txt"
    (files (world_after
              (download_financial_data (fun _ => "x") "US30" "1D"
                 "2025-01-01" "2025-01-02" "polygon" None "out")
              (mkWorld [] [] [("notes.txt", ["kept"])])))
  = read_file "notes.txt" [("notes.txt", ["kept"])].
Proof.
  apply (export_touches_one_file (fun _ => "x") "US30" "1D"
           "2025-01-01" "2025-01-02" "polygon" None "out"
           (mkWorld [] [] [("notes.txt", ["kept"])]) "notes.txt").
  discriminate.
Defined.

(** X8. Running [download_financial_data] a second time with the same
    arguments gives the same outcome and leaves the directories and the
    files as the first run left them: the directory is not made twice and
    the file is overwritten, not appended to. *)
Theorem export_twice
  (float_repr : float -> string)
  (instrument resolution start_date end_date data_source : string)
  (api_key : option string) (data_dir : string) (w : World) :
  let export := download_financial_data float_repr instrument resolution
                  start_date end_date data_source api_key data_dir in
  let w1 := world_after export w in
  outcome export w1 = outcome export w /\
  dirs (world_after export w1) = dirs w1 /\
  files (world_after export w1) = files w1.
Proof.
  cbv zeta. unfold outcome, world_after.
  rewrite !download_financial_data_run. cbv zeta.
  assert (Hd : forall out fs,
            dirs (world_after (makedirs data_dir)
                    (mkWorld out (dirs (world_after (makedirs data_dir) w)) fs))
            = dirs (world_after (makedirs data_dir) w)).
  { intros out fs. rewrite (makedirs_dirs data_dir (mkWorld _ _ _)).
    cbn [dirs]. now rewrite makedirs_exists. }
  destruct (generated start_date end_date resolution) as [[df|]|e].
  - destruct (empty df).
    + cbn [fst snd dirs files stdout]. rewrite Hd. auto.
    + cbn [fst snd dirs files stdout]. rewrite Hd.
      cbn [remove_file]. rewrite String.eqb_refl, remove_file_idem. auto.
  - cbn [fst snd dirs files stdout]. rewrite Hd. auto.
  - cbn [fst snd dirs files stdout]. rewrite Hd. auto.
Qed.


(** X10. [fetch_data_from_api] makes no directory and touches no file; it
    prints the line of the data source, and the line of the error after it
    when the generator raised. *)
Theorem fetch_leaves_the_file_system
  (instrument resolution start_date end_date data_source : string)
  (api_key : option string) (w : World) :
  let fetch := fetch_data_from_api instrument resolution start_date end_date
                 data_source api_key in
  dirs (world_after fetch w) = dirs w /\
  files (world_after fetch w) = files w /\
  stdout (world_after fetch w)
  = (stdout w ++ branch_message instrument resolution data_source
       :: match outcome fetch w with
          | Return _ => []
          | Raise e => [fetch_error_message e]
          end)%list.
Proof.
  cbv zeta. unfold world_after, outcome. rewrite fetch_data_from_api_run.
  cbn [fst snd dirs files stdout]. auto.
Qed.

(** X11. The exporter never returns the empty string, whatever the fetch
    does: a path that it returns is [data_dir/instrument_resolution.csv],
    which [if f:] of the batch driver takes for true. *)
Theorem export_returns_a_true_path
  (float_repr : float -> string)
  (fetch : string -> string -> string -> string -> string -> option string
           -> Py Fetched)
  (instrument resolution start_date end_date data_source : string)
  (api_key : option string) (data_dir : string) (w : World) (p : string) :
  outcome (download_financial_data_with float_repr fetch instrument resolution
             start_date end_date data_source api_key data_dir) w
  = Return (Some p) ->
  p = csv_path data_dir instrument resolution /\ truthy (Some p) = true.
Proof.
  unfold outcome.
  destruct (fetch instrument resolution start_date end_date data_source api_key
              (world_after (makedirs data_dir) w)) as [[data|e] w'] eqn:Hf.
  - destruct (absent_or_empty data) eqn:E.
    + rewrite (export_nothing _ _ _ _ _ _ _ _ _ _ _ _ Hf E). discriminate.
    + destruct data as [df|]; [|discriminate]. cbn [absent_or_empty] in E.
      rewrite (export_frame _ _ _ _ _ _ _ _ _ _ _ _ Hf E). cbn [fst].
      intros H. injection H as <-. split; [reflexivity | apply csv_path_truthy].
  - rewrite (export_raises _ _ _ _ _ _ _ _ _ _ _ _ Hf). discriminate.
Qed.

Lemma export_returns_a_true_path_witness :
  "d/US30_1D.csv" = csv_path "d" "US30" "1D" /\
  truthy (Some "d/US30_1D.csv") = true.
Proof.
  apply (export_returns_a_true_path (fun _ => "x")
           (fun _ _ _ _ _ _ =>
              ret (Some (mkDataFrame [0] [100%float] [100.5%float]
                           [99.5%float] [100.2%float])))
           "US30" "1D" "2025-01-01" "2025-01-01" "polygon" None "d"
           initial_world "d/US30_1D.csv").
  reflexivity.
Defined.

(** ** The batch of the program *)

(** A loop whose body always succeeds, with the world it leaves. *)
Lemma for_each_exact {A} (body : A -> list string -> Py (list string))
  (g : A -> list string) (h : A -> World -> World) (xs : list A) :
  (forall x acc w, In x xs -> body x acc w = (Return (acc ++ g x)%list, h x w)) ->
  forall acc w,
    for_each xs body acc w
    = (Return (acc ++ List.concat (map g xs))%list,
       fold_left (fun w0 x => h x w0) xs w).
Proof.
  induction xs as [|x xs IH]; intros Hbody acc w.
  - cbn [for_each map List.concat fold_left]. now rewrite app_nil_r.
  - cbn [for_each map List.concat fold_left]. unfold bind.
    rewrite (Hbody x acc w (or_introl eq_refl)).
    rewrite (IH (fun y a w0 Hy => Hbody y a w0 (or_intror Hy))).
    now rewrite app_assoc.
Qed.

Lemma fold_left_map {A B C} (f : A -> C -> A) (g : B -> C) (l : list B) (a : A) :
  fold_left f (map g l) a = fold_left (fun a0 b => f a0 (g b)) l a.
Proof. revert a. induction l as [|b l IH]; intros a; [reflexivity|]. cbn. apply IH. Qed.

Lemma fold_left_list_prod {A B W} (f : A -> B -> W -> W) (l1 : list A) (l2 : list B) (w : W) :
  fold_left (fun w0 x => fold_left (fun w1 y => f x y w1) l2 w0) l1 w
  = fold_left (fun w0 p => f (fst p) (snd p) w0) (list_prod l1 l2) w.
Proof.
  revert w. induction l1 as [|x l1 IH]; intros w; [reflexivity|].
  cbn [fold_left list_prod]. rewrite fold_left_app, fold_left_map.
  cbn [fst snd]. apply IH.
Qed.

(** Files written one after the other, at paths that differ. *)
Lemma read_fold_other (kvs : list (string * file)) (fs : list (string * file)) q :
  ~ In q (map fst kvs) ->
  read_file q
    (fold_left (fun fs0 kv => (fst kv, snd kv) :: remove_file (fst kv) fs0) kvs fs)
  = read_file q fs.
Proof.
  revert fs. induction kvs as [|[k v] kvs IH]; intros fs Hq; [reflexivity|].
  cbn [fold_left fst snd]. cbn [map fst In] in Hq.
  rewrite IH by tauto. apply read_file_other. intros ->. tauto.
Qed.

Lemma read_fold_in (kvs : list (string * file)) (fs : list (string * file)) k v :
  NoDup (map fst kvs) -> In (k, v) kvs ->
  read_file k
    (fold_left (fun fs0 kv => (fst kv, snd kv) :: remove_file (fst kv) fs0) kvs fs)
  = Some v.
Proof.
  revert fs. induction kvs as [|[k0 v0] kvs IH]; intros fs Hnd Hin; [destruct Hin|].
  cbn [fold_left fst snd]. cbn [map fst] in Hnd.
  apply NoDup_cons_iff in Hnd. destruct Hnd as [Hk0 Hnd].
  destruct Hin as [E | Hin].
  - injection E as -> ->. rewrite read_fold_other by exact Hk0.
    apply read_file_written.
  - now apply IH.
Qed.

Lemma append_inv_head (a x y : string) : a ++ x = a ++ y -> x = y.
Proof.
  induction a as [|c a IH]; [trivial|].
  cbn [append]. intros H. injection H as H. now apply IH.
Qed.

Lemma NoDup_map_inj {A B} (f : A -> B) (l : list A) :
  (forall x y, f x = f y -> x = y) -> NoDup l -> NoDup (map f l).
Proof.
  intros Hinj. induction 1 as [|x l Hx Hnd IH]; cbn [map]; constructor; [|exact IH].
  intros Hin. apply in_map_iff in Hin. destruct Hin as (y & E & Hy).
  apply Hinj in E. now subst y.
Qed.

(** [os.path.join] with a second part that is not absolute. *)
Lemma path_join_relative (a : string) c r :
  Ascii.eqb c "/" = false ->
  path_join a (String c r)
  = match a with
    | EmptyString => EmptyString
    | String _ _ => if ends_with_slash a then a else a ++ "/"
    end ++ String c r.
Proof.
  intros Hc. unfold path_join.
  assert (H : match a with
              | EmptyString => String c r
              | String _ _ =>
                  if ends_with_slash a then a ++ String c r
                  else a ++ "/" ++ String c r
              end
              = match a with
                | EmptyString => EmptyString
                | String _ _ => if ends_with_slash a then a else a ++ "/"
                end ++ String c r).
  { destruct a as [|a0 a']; [reflexivity|].
    destruct (ends_with_slash (String a0 a')); [reflexivity|].
    now rewrite string_append_assoc. }
  destruct c as [[] [] [] [] [] [] [] []]; try exact H; discriminate.
Qed.

Lemma csv_path_batch (data_dir inst res : string) :
  In inst instruments ->
  csv_path data_dir inst res
  = match data_dir with
    | EmptyString => EmptyString
    | String _ _ => if ends_with_slash data_dir then data_dir else data_dir ++ "/"
    end ++ (inst ++ "_" ++ res ++ ".csv").
Proof.
  unfold instruments, csv_path. cbn [In].
  intros [<- | [<- | [<- | []]]]; cbn [append]; now apply path_join_relative.
Qed.

Lemma batch_file_names_differ :
  NoDup (map (fun p : string * string => fst p ++ "_" ++ snd p ++ ".csv") batch_pairs).
Proof.
  assert (H : forall l : list string,
             (fix nodup (l : list string) : bool :=
                match l with
                | [] => true
                | x :: l' => negb (existsb (String.eqb x) l') && nodup l'
                end) l = true -> NoDup l).
  { induction l as [|x l IH]; intros Hl; constructor.
    - apply andb_prop in Hl. destruct Hl as [Hx _]. intros Hin.
      apply negb_true_iff in Hx.
      assert (existsb (String.eqb x) l = true)
        by (apply existsb_exists; exists x; split; [exact Hin | apply String.eqb_refl]).
      congruence.
    - apply IH. apply andb_prop in Hl. tauto. }
  apply H. vm_compute. reflexivity.
Qed.

Lemma batch_paths_differ (data_dir : string) :
  NoDup (map (fun p : string * string => csv_path data_dir (fst p) (snd p)) batch_pairs).
Proof.
  rewrite (map_ext_in _
             (fun p => match data_dir with
                       | EmptyString => EmptyString
                       | String _ _ =>
                           if ends_with_slash data_dir then data_dir else data_dir ++ "/"
                       end ++ (fst p ++ "_" ++ snd p ++ ".csv"))).
  - rewrite <- (map_map (fun p : string * string => fst p ++ "_" ++ snd p ++ ".csv")
                        (fun f => _ ++ f)).
    apply NoDup_map_inj; [intros x y; apply append_inv_head|].
    apply batch_file_names_differ.
  - intros [inst res] Hp. apply in_prod_iff in Hp. cbn [fst snd].
    apply csv_path_batch. tauto.
Qed.

Lemma concat_map_singleton {A B} (f : A -> B) (l : list A) :
  List.concat (map (fun x => [f x]) l) = map f l.
Proof.
  induction l as [|x l IH]; [reflexivity|]. cbn [map List.concat app]. now rewrite IH.
Qed.

Lemma batch_pairs_length : List.length batch_pairs = 15%nat.
Proof. reflexivity. Qed.

Lemma batch_pairs_nonempty : batch_pairs <> [].
Proof. discriminate. Qed.

Lemma outcome_of_run {A} (m : Py A) w r w' : m w = (r, w') -> outcome m w = r.
Proof. unfold outcome. now intros ->. Qed.

Lemma world_of_run {A} (m : Py A) w r w' : m w = (r, w') -> world_after m w = w'.
Proof. unfold world_after. now intros ->. Qed.

Lemma stdout_mkWorld out ds fs : stdout (mkWorld out ds fs) = out.
Proof. reflexivity. Qed.

Lemma dirs_mkWorld out ds fs : dirs (mkWorld out ds fs) = ds.
Proof. reflexivity. Qed.

Lemma files_mkWorld out ds fs : files (mkWorld out ds fs) = fs.
Proof. reflexivity. Qed.

Section ProgramBatch.

Variable float_repr : float -> string.
Variable data_source : string.
Variable api_key : option string.
Variable data_dir : string.

(** The text that every file of the batch with this resolution holds. *)
Let content (res : string) : file :=
  csv_text float_repr
    (format_timestamps (sample_frame (mkdate 2025 1 1) (mkdate 2025 9 30) res)).

Let progress (inst res : string) : string :=
  newline ++ "📊 Letöltés: " ++ inst ++ " - " ++ res.

Let total_line : string := newline ++ "✅ Összesen 15 fájl mentve.".

(** The world after one turn of the inner loop. *)
Let turn (inst res : string) (w : World) : World :=
  mkWorld (stdout w ++ [progress inst res;
                        branch_message inst res data_source;
                        saved_message (csv_path data_dir inst res)])%list
          (dirs (world_after (makedirs data_dir) w))
          ((csv_path data_dir inst res, content res)
             :: remove_file (csv_path data_dir inst res) (files w)).

Let path (p : string * string) : string := csv_path data_dir (fst p) (snd p).

(** The world after the turns of the pairs [ps]. *)
Let turns (ps : list (string * string)) (w : World) : World :=
  fold_left (fun w0 p => turn (fst p) (snd p) w0) ps w.

Lemma batch_turn inst res w :
  download_financial_data float_repr inst res "2025-01-01" "2025-09-30"
    data_source api_key data_dir
    (mkWorld (stdout w ++ [progress inst res])%list (dirs w) (files w))
  = (Return (Some (csv_path data_dir inst res)), turn inst res w).
Proof.
  rewrite download_financial_data_run. cbv zeta.
  rewrite (generated_parsed "2025-01-01" "2025-09-30" res
             (mkdate 2025 1 1) (mkdate 2025 9 30) eq_refl eq_refl).
  rewrite sample_frame_nonempty by (vm_compute; discriminate).
  unfold turn, content. cbn [stdout dirs files]. rewrite <- app_assoc. reflexivity.
Qed.

Lemma program_batch_run w :
  download_all_assets float_repr data_source api_key data_dir w
  = (Return (map path batch_pairs),
     mkWorld (stdout (turns batch_pairs w) ++ [total_line])%list
             (dirs (turns batch_pairs w)) (files (turns batch_pairs w))).
Proof.
  unfold download_all_assets, download_all_assets_with.
  fold (download_financial_data float_repr).
  set (inner := fun inst : string => for_each resolutions _).
  assert (Hinner : forall inst acc w0,
            inner inst acc w0
            = (Return (acc ++ List.concat
                         (map (fun res => [csv_path data_dir inst res]) resolutions))%list,
               fold_left (fun w1 res => turn inst res w1) resolutions w0)).
  { intros inst acc w0. unfold inner. apply for_each_exact. intros res a w1 _.
    unfold bind at 1. cbn [print]. unfold bind at 1.
    fold (progress inst res). rewrite batch_turn.
    now rewrite csv_path_truthy. }
  unfold bind at 1.
  rewrite (for_each_exact inner
             (fun inst => List.concat
                            (map (fun res => [csv_path data_dir inst res]) resolutions))
             (fun inst w0 => fold_left (fun w1 res => turn inst res w1) resolutions w0)
             instruments (fun inst acc w0 _ => Hinner inst acc w0)).
  rewrite app_nil_l.
  rewrite (concat_concat_map (fun inst res => [csv_path data_dir inst res])).
  rewrite (fold_left_list_prod turn).
  fold batch_pairs. fold (turns batch_pairs w).
  rewrite (concat_map_singleton (fun p => csv_path data_dir (fst p) (snd p)) batch_pairs).
  fold path.
  unfold print. rewrite length_map, batch_pairs_length.
  reflexivity.
Qed.

Lemma turns_files (ps : list (string * string)) w :
  files (turns ps w)
  = fold_left (fun fs0 kv => (fst kv, snd kv) :: remove_file (fst kv) fs0)
      (map (fun p => (path p, content (snd p))) ps)
      (files w).
Proof.
  unfold turns. revert w. induction ps as [|p ps IH]; intros w; [reflexivity|].
  cbn [fold_left map]. rewrite IH. reflexivity.
Qed.

Lemma turns_dirs (ps : list (string * string)) w0 w :
  dirs w0 = dirs (world_after (makedirs data_dir) w) ->
  dirs (turns ps w0) = dirs (world_after (makedirs data_dir) w).
Proof.
  unfold turns. revert w0. induction ps as [|p ps IH]; intros w0 H; [exact H|].
  cbn [fold_left]. apply IH. unfold turn. rewrite dirs_mkWorld.
  rewrite (makedirs_dirs data_dir w0), H. now rewrite makedirs_exists.
Qed.

Lemma turns_dirs_nonempty (ps : list (string * string)) w :
  ps <> [] -> dirs (turns ps w) = dirs (world_after (makedirs data_dir) w).
Proof.
  destruct ps as [|p ps]; [congruence|]. intros _.
  change (turns (p :: ps) w) with (turns ps (turn (fst p) (snd p) w)).
  apply turns_dirs. unfold turn. apply dirs_mkWorld.
Qed.

Lemma turns_stdout (ps : list (string * string)) w :
  List.length (stdout (turns ps w))
  = (List.length (stdout w) + 3 * List.length ps)%nat.
Proof.
  unfold turns. revert w.
  induction ps as [|p ps IH]; intros w; cbn [fold_left List.length]; [lia|].
  rewrite IH. unfold turn. rewrite stdout_mkWorld, length_app. cbn [List.length]. lia.
Qed.

(** The batch of the program and the world it leaves. *)
Lemma program_batch_world w :
  exists w',
    download_all_assets float_repr data_source api_key data_dir w
    = (Return (map path batch_pairs), w') /\
    (forall inst res, In inst instruments -> In res resolutions ->
       read_file (csv_path data_dir inst res) (files w') = Some (content res)) /\
    (forall q, ~ In q (map path batch_pairs) ->
       read_file q (files w') = read_file q (files w)) /\
    dirs w' = dirs (world_after (makedirs data_dir) w) /\
    List.length (stdout w') = (List.length (stdout w) + 46)%nat /\
    last (stdout w') EmptyString = total_line.
Proof.
  pose proof (batch_paths_differ data_dir) as Hnd. fold path in Hnd.
  eexists. split; [apply program_batch_run|].
  rewrite stdout_mkWorld, dirs_mkWorld, files_mkWorld.
  rewrite turns_files.
  split; [|split; [|split; [|split]]].
  - intros inst res Hi Hr.
    apply (read_fold_in _ _ (path (inst, res)) (content (snd (inst, res)))).
    + rewrite map_map. exact Hnd.
    + apply (in_map (fun p => (path p, content (snd p)))).
      apply in_prod_iff. split; assumption.
  - intros q Hq. apply read_fold_other. rewrite map_map. exact Hq.
  - apply turns_dirs_nonempty. apply batch_pairs_nonempty.
  - rewrite length_app, turns_stdout, batch_pairs_length. cbn [List.length]. lia.
  - apply last_last.
Qed.

End ProgramBatch.


(** ** The last line of the generator *)

(** Every step is a whole part of a day. *)
Lemma step_seconds_divides_day (resolution : string) :
  step_seconds resolution * (86400 / step_seconds resolution) = 86400.
Proof.
  unfold step_seconds, to_offset, freq_map, dict_get.
  destruct (String.eqb "1min" resolution); [reflexivity|].
  destruct (String.eqb "5min" resolution); [reflexivity|].
  destruct (String.eqb "15min" resolution); [reflexivity|].
  destruct (String.eqb "30min" resolution); [reflexivity|].
  destruct (String.eqb "1H" resolution); [reflexivity|].
  destruct (String.eqb "1D" resolution); reflexivity.
Qed.


